(** * Tegra watchdog driver (drivers/watchdog/tegra_wdt.c)

    A shallow embedding of the driver's character-device protocol
    (open / write / ioctl / release), its register backend for the two
    SoC generations, its interrupt handlers and its probe / power
    management entry points, followed by the properties of the
    watchdog specification that were checked against it.

    The driver is built for a 32-bit ARM kernel: [int], [unsigned long]
    and [u32] are 32 bits wide.  C integers are represented in [Z] and
    every conversion that can wrap is written out. *)

From Stdlib Require Import ZArith List Bool String Lia.
From stdpp Require Import gmap.
Import ListNotations.
Local Open Scope Z_scope.

(** ** Integer conversions *)

(** Conversion to [u32] / 32-bit [unsigned long]. *)
Definition to_u32 (x : Z) : Z := x mod 2 ^ 32.

(** Conversion to 32-bit two's complement [int] / [ssize_t]. *)
Definition to_int (x : Z) : Z :=
  let y := x mod 2 ^ 32 in if y <? 2 ^ 31 then y else y - 2 ^ 32.

(** The kernel's [clamp(val, lo, hi)], that is [min(max(val, lo), hi)]. *)
Definition clamp (val lo hi : Z) : Z := Z.min (Z.max val lo) hi.

(** ** Constants of the driver *)

Definition MIN_WDT_PERIOD : Z := 5.
Definition MAX_WDT_PERIOD : Z := 1000.
Definition TMR_SRC_START : Z := 7.
Definition WDT_DEFAULT_TIME : Z := 60.

(** [enum tegra_wdt_status] *)
Definition WDT_DISABLED : Z := Z.shiftl 1 0.
Definition WDT_ENABLED : Z := Z.shiftl 1 1.
Definition WDT_KERNEL_HEARTBEAT : Z := Z.shiftl 1 2.

(** Register offsets and bits.  [TIMER_PTV], [TIMER_PCR] and their bits
    are the same in both builds. *)
Definition TIMER_PTV : Z := 0.
Definition TIMER_EN : Z := Z.shiftl 1 31.
Definition TIMER_PERIODIC : Z := Z.shiftl 1 30.
Definition TIMER_PCR : Z := 4.
Definition TIMER_PCR_INTR : Z := Z.shiftl 1 30.

(** Tegra 2 only *)
Definition WDT_EN : Z := Z.shiftl 1 5.
Definition WDT_SEL_TMR1 : Z := Z.shiftl 0 4.
Definition WDT_SYS_RST : Z := Z.shiftl 1 2.

(** Tegra 3 only *)
Definition WDT_CFG : Z := 0.
Definition WDT_CFG_PERIOD : Z := Z.shiftl 1 4.
Definition WDT_CFG_INT_EN : Z := Z.shiftl 1 12.
Definition WDT_CFG_FIQ_INT_EN : Z := Z.shiftl 1 13.
Definition WDT_CFG_SYS_RST_EN : Z := Z.shiftl 1 14.
Definition WDT_CFG_PMC2CAR_RST_EN : Z := Z.shiftl 1 15.
Definition WDT_STATUS : Z := 4.
Definition WDT_INTR_STAT : Z := Z.shiftl 1 1.
Definition WDT_CMD : Z := 8.
Definition WDT_CMD_START_COUNTER : Z := Z.shiftl 1 0.
Definition WDT_CMD_DISABLE_COUNTER : Z := Z.shiftl 1 1.
Definition WDT_UNLOCK : Z := 12.
Definition WDT_UNLOCK_PATTERN : Z := Z.shiftl 50266 0.   (* 0xC45A *)
Definition ICTLR_IEP_CLASS : Z := 44.                    (* 0x2C *)
Definition MAX_NR_CPU_WDT : nat := 4.

(** The errno values and kernel constants the driver returns or tests
    (from the kernel headers it includes). *)
Definition EBUSY : Z := 16.
Definition EFAULT : Z := 14.
Definition EINVAL : Z := 22.
Definition ENOTTY : Z := 25.
Definition ENODEV : Z := 19.
Definition ENOENT : Z := 2.
Definition ENOMEM : Z := 12.
Definition WDIOS_DISABLECARD : Z := 1.
Definition WDIOS_ENABLECARD : Z := 2.
Definition WDIOF_SETTIMEOUT : Z := 128.
Definition SYS_DOWN : Z := 1.
Definition SYS_HALT : Z := 2.
Definition NOTIFY_DONE : Z := 0.
Definition IRQ_HANDLED : Z := 1.
Definition magic_char : Z := 86.                         (* 'V' *)

(** ** Build and module configuration *)

Inductive soc := TEGRA_2x | TEGRA_3x.

(** The [#ifdef]s the file is compiled under and its two module
    parameters.  [int_wdt_cpu] is [INT_WDT_CPU] of mach/irqs.h, used by
    the FIQ debugger build only. *)
Record kconfig := Kconfig {
  arch : soc;                 (* CONFIG_ARCH_TEGRA_2x_SOC / _3x_SOC *)
  fiq_debugger : bool;        (* CONFIG_TEGRA_FIQ_DEBUGGER *)
  enable_heartbeat : bool;    (* CONFIG_TEGRA_WATCHDOG_ENABLE_HEARTBEAT *)
  int_wdt_cpu : Z;
  heartbeat : Z;              (* static int heartbeat *)
  nowayout : bool             (* static bool nowayout *)
}.

(** ** Driver data *)

(** The fields of [struct tegra_wdt] the driver computes with.
    [int_base] records whether the interrupt-controller window is
    mapped (non-NULL). *)
Record tegra_wdt := TegraWdt {
  users : Z;
  int_base : bool;
  tmrsrc : Z;
  timeout : Z;
  status : Z;
  way_out_ok : Z;
  irq : Z;
  irq_counter : Z
}.

(** [kzalloc]'ed instance. *)
Definition kzalloc_wdt : tegra_wdt := TegraWdt 0 false 0 0 0 0 0 0.

Definition set_users (v : Z) (w : tegra_wdt) : tegra_wdt :=
  TegraWdt v (int_base w) (tmrsrc w) (timeout w) (status w) (way_out_ok w) (irq w) (irq_counter w).
Definition set_int_base (v : bool) (w : tegra_wdt) : tegra_wdt :=
  TegraWdt (users w) v (tmrsrc w) (timeout w) (status w) (way_out_ok w) (irq w) (irq_counter w).
Definition set_tmrsrc (v : Z) (w : tegra_wdt) : tegra_wdt :=
  TegraWdt (users w) (int_base w) v (timeout w) (status w) (way_out_ok w) (irq w) (irq_counter w).
Definition set_timeout (v : Z) (w : tegra_wdt) : tegra_wdt :=
  TegraWdt (users w) (int_base w) (tmrsrc w) v (status w) (way_out_ok w) (irq w) (irq_counter w).
Definition set_status (v : Z) (w : tegra_wdt) : tegra_wdt :=
  TegraWdt (users w) (int_base w) (tmrsrc w) (timeout w) v (way_out_ok w) (irq w) (irq_counter w).
Definition set_way_out_ok (v : Z) (w : tegra_wdt) : tegra_wdt :=
  TegraWdt (users w) (int_base w) (tmrsrc w) (timeout w) (status w) v (irq w) (irq_counter w).
Definition set_irq (v : Z) (w : tegra_wdt) : tegra_wdt :=
  TegraWdt (users w) (int_base w) (tmrsrc w) (timeout w) (status w) (way_out_ok w) v (irq_counter w).
Definition set_irq_counter (v : Z) (w : tegra_wdt) : tegra_wdt :=
  TegraWdt (users w) (int_base w) (tmrsrc w) (timeout w) (status w) (way_out_ok w) (irq w) v.

(** ** Memory-mapped hardware *)

(** The three [ioremap]'ed windows. *)
Inductive iomem := WDT_SOURCE | WDT_TIMER | INT_BASE.

(** What the driver does to the outside world, in program order. *)
Inductive io_event :=
| Writel (val : Z) (base : iomem) (off : Z)
| EnableIrq (n : Z)
| DisableIrqNosync (n : Z)
| TaskletSchedule
| WarnOnOnce
| FreeIrq (n : Z)
| Iounmap (base : iomem)
| ReleaseMemRegion (base : iomem)
| Kfree
| DevInfo (msg : string)
| DevErr (msg : string)
| PrInfo (msg : string).

(** Modelled from the spec: the timer block behind the registers, which
    is hardware and not part of the source.  [ptv] is the period
    register of the free-running timer, [src] the register at offset 0
    of the source window (reset configuration on Tegra 2, [WDT_CFG] on
    Tegra 3), [unlock] the unlock register and [counter_on] whether the
    Tegra 3 counter has been started; [iep_class] is the interrupt
    controller's class register. *)
Record timer_hw := TimerHw {
  ptv : Z;
  src : Z;
  unlock : Z;
  counter_on : bool;
  iep_class : Z
}.

(** Modelled from the spec: effect of one 32-bit register write.  On
    Tegra 3 a disable command is honoured only after the unlock pattern
    has been written, and a start command (re)starts the counter. *)
Definition hw_write (a : soc) (v : Z) (base : iomem) (off : Z) (h : timer_hw) : timer_hw :=
  match base with
  | WDT_TIMER =>
      if off =? TIMER_PTV
      then TimerHw v (src h) (unlock h) (counter_on h) (iep_class h)
      else h
  | WDT_SOURCE =>
      match a with
      | TEGRA_2x =>
          if off =? 0
          then TimerHw (ptv h) v (unlock h) (counter_on h) (iep_class h)
          else h
      | TEGRA_3x =>
          if off =? WDT_CFG
          then TimerHw (ptv h) v (unlock h) (counter_on h) (iep_class h)
          else if off =? WDT_UNLOCK
          then TimerHw (ptv h) (src h) v (counter_on h) (iep_class h)
          else if off =? WDT_CMD
          then
            if Z.testbit v 1
            then (if unlock h =? WDT_UNLOCK_PATTERN
                  then TimerHw (ptv h) (src h) 0 false (iep_class h)
                  else h)
            else if Z.testbit v 0
            then TimerHw (ptv h) (src h) (unlock h) true (iep_class h)
            else h
          else h
      end
  | INT_BASE =>
      if off =? ICTLR_IEP_CLASS
      then TimerHw (ptv h) (src h) (unlock h) (counter_on h) v
      else h
  end.

(** Modelled from the spec: the hardware is armed when an unacknowledged
    expiry will reset the machine, i.e. the free-running timer is
    enabled and the reset path is switched on (Tegra 2: [WDT_EN] in the
    reset configuration; Tegra 3: the counter is running). *)
Definition armed (a : soc) (h : timer_hw) : bool :=
  match a with
  | TEGRA_2x => Z.testbit (ptv h) 31 && Z.testbit (src h) 5
  | TEGRA_3x => Z.testbit (ptv h) 31 && counter_on h
  end.

(** ** User memory *)

(** One user-space object (a [char] of a write buffer or the [int] an
    ioctl argument points to).  A mapped object can always be read;
    [writable] tells whether the page also accepts stores. *)
Record ucell := UCell { contents : Z; writable : bool }.

(** ** The world the driver runs in *)

Record world := World {
  dev : tegra_wdt;
  hw : timer_hw;
  log : list io_event;
  user : gmap Z ucell
}.

Definition set_dev (d : tegra_wdt) (s : world) : world := World d (hw s) (log s) (user s).
Definition set_hw (h : timer_hw) (s : world) : world := World (dev s) h (log s) (user s).
Definition set_log (l : list io_event) (s : world) : world := World (dev s) (hw s) l (user s).
Definition set_user (m : gmap Z ucell) (s : world) : world := World (dev s) (hw s) (log s) m.

(** State monad over the world. *)
Definition M (A : Type) : Type := world -> A * world.
Definition ret {A} (a : A) : M A := fun s => (a, s).
Definition bind {A B} (m : M A) (k : A -> M B) : M B :=
  fun s => let (a, s') := m s in k a s'.

Declare Scope wdt_scope.
Delimit Scope wdt_scope with wdt.
Notation "x <- m ;; k" := (bind m (fun x => k))
  (at level 100, m at next level, k at level 200, right associativity) : wdt_scope.
Notation "m ;; k" := (bind m (fun _ => k))
  (at level 100, k at level 200, right associativity) : wdt_scope.
Local Open Scope wdt_scope.

Definition get_wdt : M tegra_wdt := fun s => (dev s, s).
Definition modify_wdt (f : tegra_wdt -> tegra_wdt) : M unit :=
  fun s => (tt, set_dev (f (dev s)) s).
Definition emit (e : io_event) : M unit :=
  fun s => (tt, set_log (log s ++ [e]) s).

(** C truth value of an integer expression. *)
Definition nonzero (z : Z) : bool := negb (z =? 0).

(** [get_user(x, p)]: [None] is the fault. *)
Definition get_user (addr : Z) : M (option Z) :=
  fun s => (contents <$> user s !! addr, s).

(** [put_user(v, p)]: 0, or [-EFAULT] when the object is not mapped or
    not writable.  The stored object is recorded under its first
    address; the three further bytes an [int] covers have no cells of
    their own. *)
Definition put_user (v addr : Z) : M Z :=
  fun s =>
    match user s !! addr with
    | Some c =>
        if writable c
        then (0, set_user (<[addr := UCell v true]> (user s)) s)
        else (- EFAULT, s)
    | None => (- EFAULT, s)
    end.

(** [copy_to_user] of a sequence of (size, value) objects laid out from
    [addr] on: the number of bytes that could not be copied. *)
Fixpoint copy_to_user (objs : list (Z * Z)) (addr : Z) : M Z :=
  match objs with
  | [] => ret 0
  | (sz, v) :: rest =>
      r <- put_user v addr ;;
      if r =? 0 then copy_to_user rest (addr + sz)
      else ret (fold_right (fun o acc => fst o + acc) 0 objs)
  end.

(** [static const struct watchdog_info ident]: options, firmware
    version and the 32-byte identity. *)
Definition identity : string := "Tegra Watchdog".
Definition ident : list (Z * Z) :=
  [(4, WDIOF_SETTIMEOUT); (4, 0)]
  ++ map (fun c => (1, Z.of_nat (Ascii.nat_of_ascii c))) (list_ascii_of_string identity)
  ++ repeat (1, 0) (32 - String.length identity).

(** The ioctl numbers the driver switches on; [WDIOC_other] stands for
    every other command value. *)
Inductive ioctl_cmd :=
| WDIOC_GETSUPPORT
| WDIOC_GETSTATUS
| WDIOC_GETBOOTSTATUS
| WDIOC_KEEPALIVE
| WDIOC_SETTIMEOUT
| WDIOC_GETTIMEOUT
| WDIOC_SETOPTIONS
| WDIOC_other (n : Z).

Section Driver.

Variable cfg : kconfig.

Definition writel (v : Z) (base : iomem) (off : Z) : M unit :=
  fun s =>
    (tt, set_log (log s ++ [Writel v base off])
           (set_hw (hw_write (arch cfg) v base off (hw s)) s)).

(** ** Register backend *)

Definition tegra_wdt_enable : M unit :=
  wdt <- get_wdt ;;
  match arch cfg with
  | TEGRA_2x =>
      let val := to_u32 (to_u32 (timeout wdt * 1000000) / 2) in
      let val := to_u32 (Z.lor val (Z.lor TIMER_EN TIMER_PERIODIC)) in
      writel val WDT_TIMER TIMER_PTV ;;
      let val := to_u32 (Z.lor (Z.lor WDT_EN WDT_SEL_TMR1) WDT_SYS_RST) in
      writel val WDT_SOURCE 0
  | TEGRA_3x =>
      writel TIMER_PCR_INTR WDT_TIMER TIMER_PCR ;;
      let val := to_u32 (to_u32 (timeout wdt * 1000000) / 4) in
      let val := to_u32 (Z.lor val (Z.lor TIMER_EN TIMER_PERIODIC)) in
      writel val WDT_TIMER TIMER_PTV ;;
      writel WDT_CMD_START_COUNTER WDT_SOURCE WDT_CMD ;;
      let val := to_u32 (Z.lor (Z.lor (tmrsrc wdt) WDT_CFG_PERIOD) WDT_CFG_PMC2CAR_RST_EN) in
      let val := if fiq_debugger cfg then to_u32 (Z.lor val WDT_CFG_FIQ_INT_EN) else val in
      writel val WDT_SOURCE WDT_CFG
  end.

Definition tegra_wdt_disable : M unit :=
  match arch cfg with
  | TEGRA_2x =>
      writel 0 WDT_SOURCE 0 ;;
      writel 0 WDT_TIMER TIMER_PTV
  | TEGRA_3x =>
      writel WDT_UNLOCK_PATTERN WDT_SOURCE WDT_UNLOCK ;;
      writel WDT_CMD_DISABLE_COUNTER WDT_SOURCE WDT_CMD ;;
      writel 0 WDT_TIMER TIMER_PTV
  end.

Definition tegra_wdt_ping : M unit :=
  match arch cfg with
  | TEGRA_2x =>
      tegra_wdt_enable ;;
      wdt <- get_wdt ;;
      if nonzero (irq_counter wdt)
      then
        writel TIMER_PCR_INTR WDT_TIMER TIMER_PCR ;;
        modify_wdt (set_irq_counter 0) ;;
        emit (EnableIrq (irq wdt))
      else ret tt
  | TEGRA_3x =>
      writel WDT_CMD_START_COUNTER WDT_SOURCE WDT_CMD
  end.

(** Tegra 3, FIQ debugger build: route the watchdog interrupt back to
    IRQ priority. *)
Definition tegra_wdt_int_priority : M unit :=
  wdt <- get_wdt ;;
  if int_base wdt
  then
    fun s =>
      let val := iep_class (hw s) in
      let val := Z.land val (to_u32 (Z.lnot (Z.shiftl 1 (Z.land (int_wdt_cpu cfg) 31)))) in
      writel val INT_BASE ICTLR_IEP_CLASS s
  else ret tt.

(** ** Interrupt handlers *)

(** Tegra 2 handler, one instance per interrupt line. *)
Definition tegra_wdt_interrupt_2x (irqn : Z) : M Z :=
  modify_wdt (fun w => set_irq_counter (to_int (irq_counter w + 1)) w) ;;
  wdt <- get_wdt ;;
  (if nonzero (Z.land (status wdt) WDT_KERNEL_HEARTBEAT)
   then tegra_wdt_ping
   else
     emit TaskletSchedule ;;
     emit (DisableIrqNosync irqn)) ;;
  ret IRQ_HANDLED.

Definition tegra_wdt_do_tasklet : M unit :=
  emit (DevInfo "Watchdog interrupt received, system will reset soon if no ping arrives").

(** Tegra 3: what the shared handler does for one registered instance. *)
Definition tegra_wdt_interrupt_instance : M unit :=
  wdt <- get_wdt ;;
  (if nonzero (Z.land (status wdt) WDT_KERNEL_HEARTBEAT)
   then ret tt else emit WarnOnOnce) ;;
  if nonzero (Z.land (status wdt) WDT_KERNEL_HEARTBEAT)
  then tegra_wdt_ping
  else ret tt.

(** Body of the Tegra 3 handler's loop for a non-NULL slot;
    [status_reg] is the value [readl] returns for that instance's
    [WDT_STATUS]. *)
Definition tegra_wdt_interrupt_slot (status_reg : Z) : M unit :=
  wdt <- get_wdt ;;
  if nonzero (Z.land (status wdt) WDT_ENABLED)
     && nonzero (Z.land status_reg WDT_INTR_STAT)
  then tegra_wdt_interrupt_instance
  else ret tt.

(** Tegra 3 handler over the global [tegra_wdt[MAX_NR_CPU_WDT]] array;
    each registered instance has its own register windows. *)
Definition tegra_wdt_interrupt_3x (status_regs : nat -> Z)
    (registry : list (option world)) : Z * list (option world) :=
  (IRQ_HANDLED,
   imap (fun i slot =>
           match slot with
           | Some s => Some (snd (tegra_wdt_interrupt_slot (status_regs i) s))
           | None => None
           end) (take MAX_NR_CPU_WDT registry)
   ++ drop MAX_NR_CPU_WDT registry).

(** ** Reboot notifier and power management *)

Definition tegra_wdt_notify (code : Z) : M Z :=
  (if (code =? SYS_DOWN) || (code =? SYS_HALT)
   then tegra_wdt_disable else ret tt) ;;
  ret NOTIFY_DONE.

Definition tegra_wdt_suspend : M Z :=
  tegra_wdt_disable ;; ret 0.

Definition tegra_wdt_resume : M Z :=
  wdt <- get_wdt ;;
  (if nonzero (Z.land (status wdt) WDT_ENABLED)
   then tegra_wdt_enable else ret tt) ;;
  ret 0.

(** ** Control protocol *)

(** [test_and_set_bit(nr, &wdt->users)] *)
Definition test_and_set_bit (nr : Z) : M bool :=
  fun s =>
    (Z.testbit (users (dev s)) nr,
     set_dev (set_users (Z.setbit (users (dev s)) nr) (dev s)) s).

(** The spin lock taken by the ioctl cases protects against other
    callers only; a single call is modelled as running alone.
    [nonseekable_open] returns 0. *)
Definition tegra_wdt_open : M Z :=
  busy <- test_and_set_bit 1 ;;
  if busy then ret (- EBUSY)
  else
    (* Reset no way out, we need a new magic again *)
    modify_wdt (set_way_out_ok 0) ;;
    modify_wdt (fun w => set_status (Z.lor (status w) WDT_ENABLED) w) ;;
    modify_wdt (set_timeout (heartbeat cfg)) ;;
    tegra_wdt_enable ;;
    ret 0.

Definition tegra_wdt_release : M Z :=
  wdt <- get_wdt ;;
  (if nonzero (Z.land (status wdt) WDT_ENABLED) && negb (nowayout cfg)
   then
     if nonzero (way_out_ok wdt)
     then
       tegra_wdt_disable ;;
       modify_wdt (set_status WDT_DISABLED)
     else emit (DevInfo "No Magic Close received, watchdog not disabled!")
   else if nowayout cfg
   then emit (DevInfo "No way out is enabled, watchdog not disabled!")
   else ret tt) ;;
  modify_wdt (fun w => set_users (Z.clearbit (users w) 1) w) ;;
  ret 0.

Definition tegra_wdt_ioctl (cmd : ioctl_cmd) (arg : Z) : M Z :=
  match cmd with
  | WDIOC_GETSUPPORT => copy_to_user ident arg
  | WDIOC_GETSTATUS
  | WDIOC_GETBOOTSTATUS => put_user 0 arg
  | WDIOC_KEEPALIVE =>
      tegra_wdt_ping ;;
      ret 0
  | WDIOC_SETTIMEOUT =>
      r <- get_user arg ;;
      match r with
      | None => ret (- EFAULT)
      | Some v =>
          let new_timeout := to_int v in
          tegra_wdt_disable ;;
          modify_wdt (set_timeout (clamp new_timeout MIN_WDT_PERIOD MAX_WDT_PERIOD)) ;;
          tegra_wdt_enable ;;
          (* no break: continues with the WDIOC_GETTIMEOUT case *)
          wdt <- get_wdt ;;
          put_user (timeout wdt) arg
      end
  | WDIOC_GETTIMEOUT =>
      wdt <- get_wdt ;;
      put_user (timeout wdt) arg
  | WDIOC_SETOPTIONS =>
      r <- get_user arg ;;
      match r with
      | None => ret (- EFAULT)
      | Some v =>
          let option := to_int v in
          if nonzero (Z.land option WDIOS_DISABLECARD) && negb (nowayout cfg)
          then
            modify_wdt (fun w => set_status (Z.land (status w) (Z.lnot WDT_ENABLED)) w) ;;
            modify_wdt (fun w => set_status (Z.lor (status w) WDT_DISABLED) w) ;;
            tegra_wdt_disable ;;
            ret 0
          else if nonzero (Z.land option WDIOS_ENABLECARD)
          then
            tegra_wdt_enable ;;
            modify_wdt (fun w => set_status (Z.lor (status w) WDT_ENABLED) w) ;;
            modify_wdt (fun w => set_status (Z.land (status w) (Z.lnot WDT_DISABLED)) w) ;;
            ret 0
          else ret (- EINVAL)
      end
  | WDIOC_other _ => ret (- ENOTTY)
  end.

(** [data] is the user address of the buffer, [len] its [size_t]
    length; the result is the [ssize_t] return value. *)
Definition tegra_wdt_write (data len : Z) : M Z :=
  if nonzero len
  then
    tegra_wdt_ping ;;
    r <- get_user (data + len - 1) ;;
    match r with
    | None => ret (- EFAULT)
    | Some v =>
        let c := v mod 256 in
        modify_wdt (set_way_out_ok (if magic_char =? c then 1 else 0)) ;;
        ret (to_int len)
    end
  else ret (to_int len).

(** ** Probe *)

(** What the platform device describes: its id and which resources it
    carries ([res_irq] is the interrupt number when present). *)
Record platform_device := PlatformDevice {
  id : Z;
  res_src : bool;
  res_wdt : bool;
  res_irq : option Z;
  res_int_base : bool
}.

(** Answers of the kernel services probe calls. *)
Record kernel_env := KernelEnv {
  kzalloc_ok : bool;
  request_src_ok : bool;
  request_wdt_ok : bool;
  ioremap_src_ok : bool;
  ioremap_wdt_ok : bool;
  request_int_base_ok : bool;
  ioremap_int_base_ok : bool;
  last_reset_wdt : bool;         (* readl(wdt_source) & BIT(12) *)
  request_irq_ret : Z;
  register_reboot_notifier_ret : Z;
  misc_register_ret : Z
}.

(** Outcome of probe: the instance is registered ([Probed], return
    value 0); the [fail:] path ran and freed it, returning [r]
    ([Failed r]); an early [return r] before the instance exists
    ([Refused r]); or a NULL resource was dereferenced ([Oops]). *)
Inductive probe_result := Probed | Failed (r : Z) | Refused (r : Z) | Oops.

(** The [fail:] label.  [src_req], [wdt_req] and [int_req] are the
    local resource pointers at that point, [src_map] and [wdt_map] the
    two mappings. *)
Definition probe_fail (src_req wdt_req int_req src_map wdt_map : bool) (r : Z)
  : M probe_result :=
  wdt <- get_wdt ;;
  (if irq wdt =? -1 then ret tt else emit (FreeIrq (irq wdt))) ;;
  (if src_map then emit (Iounmap WDT_SOURCE) else ret tt) ;;
  (if wdt_map then emit (Iounmap WDT_TIMER) else ret tt) ;;
  (if int_base wdt then emit (Iounmap INT_BASE) else ret tt) ;;
  (if src_req then emit (ReleaseMemRegion WDT_SOURCE) else ret tt) ;;
  (if wdt_req then emit (ReleaseMemRegion WDT_TIMER) else ret tt) ;;
  (if int_req then emit (ReleaseMemRegion INT_BASE) else ret tt) ;;
  emit Kfree ;;
  ret (Failed r).

(** Last part of probe, from [wdt->res_src = res_src] on. *)
Definition probe_register (pdev : platform_device) (k : kernel_env)
    (int_req : bool) : M probe_result :=
  let is_heartbeat_wdt :=
    match arch cfg with TEGRA_2x => true | TEGRA_3x => id pdev =? 0 end in
  modify_wdt (set_status WDT_DISABLED) ;;
  if nonzero (register_reboot_notifier_ret k)
  then
    emit (DevErr "cannot register reboot notifier") ;;
    probe_fail true true int_req true true (register_reboot_notifier_ret k)
  else if nonzero (misc_register_ret k)
  then
    emit (DevErr "failed to register misc device") ;;
    probe_fail true true int_req true true (misc_register_ret k)
  else
    (if enable_heartbeat cfg && is_heartbeat_wdt
     then
       (* Enable first watchdog during probe *)
       modify_wdt (set_status (Z.lor WDT_ENABLED WDT_KERNEL_HEARTBEAT)) ;;
       modify_wdt (set_timeout (heartbeat cfg)) ;;
       modify_wdt (fun w => set_users (Z.setbit (users w) 1) w) ;;
       tegra_wdt_enable ;;
       emit (PrInfo "WDT kernel heartbeat enabled on probe")
     else ret tt) ;;
    emit (DevInfo "tegra_wdt_probe done") ;;
    ret Probed.

(** [wdt->irq = -1; ret = request_irq(...); ...] and what follows. *)
Definition probe_request_irq (pdev : platform_device) (k : kernel_env) (n : Z)
  : M probe_result :=
  modify_wdt (set_irq (-1)) ;;
  if nonzero (request_irq_ret k)
  then
    emit (DevErr "unable to configure IRQ") ;;
    probe_fail true true (fiq_debugger cfg) true true (request_irq_ret k)
  else
    modify_wdt (set_irq (to_int n)) ;;
    probe_register pdev k (fiq_debugger cfg).

(** The [if (res_irq != NULL)] block.  In the FIQ debugger build the
    interrupt-controller window is requested and mapped first; its
    resource pointer is dereferenced without a check. *)
Definition probe_irq (pdev : platform_device) (k : kernel_env) : M probe_result :=
  match res_irq pdev with
  | None => probe_register pdev k (res_int_base pdev && fiq_debugger cfg)
  | Some n =>
      if fiq_debugger cfg
      then
        if res_int_base pdev
        then
          if request_int_base_ok k
          then
            if ioremap_int_base_ok k
            then
              modify_wdt (set_int_base true) ;;
              tegra_wdt_int_priority ;;
              probe_request_irq pdev k n
            else probe_fail true true true true true 0
          else probe_fail true true false true true 0
        else ret Oops
      else probe_request_irq pdev k n
  end.

Definition tegra_wdt_probe (pdev : platform_device) (k : kernel_env) : M probe_result :=
  if (id pdev <? -1) && (id pdev >? 3)
  then
    emit (DevErr "only IDs 3:0 supported") ;;
    ret (Refused (- ENODEV))
  else if negb (res_src pdev) || negb (res_wdt pdev)
          || ((id pdev =? 0) && negb (bool_decide (is_Some (res_irq pdev))))
  then
    emit (DevErr "incorrect resources") ;;
    ret (Refused (- ENOENT))
  else if fiq_debugger cfg && (id pdev =? 0) && negb (res_int_base pdev)
  then
    emit (DevErr "FIQ_DBG: INT base not defined") ;;
    ret (Refused (- ENOENT))
  else if (id pdev =? -1) && negb (bool_decide (is_Some (res_irq pdev)))
  then
    emit (DevErr "incorrect irq") ;;
    ret (Refused (- ENOENT))
  else if negb (kzalloc_ok k)
  then
    emit (DevErr "out of memory") ;;
    ret (Refused (- ENOMEM))
  else
    let int_res := res_int_base pdev && fiq_debugger cfg in
    modify_wdt (fun _ => kzalloc_wdt) ;;
    if negb (request_src_ok k) || negb (request_wdt_ok k)
    then
      emit (DevErr "unable to request memory resources") ;;
      probe_fail (request_src_ok k) (request_wdt_ok k) int_res false false (- EBUSY)
    else
      (* tmrsrc will be used to set WDT_CFG *)
      modify_wdt (set_tmrsrc (Z.rem (TMR_SRC_START + id pdev) 10)) ;;
      if negb (ioremap_src_ok k) || negb (ioremap_wdt_ok k)
      then
        emit (DevErr "unable to map registers") ;;
        probe_fail true true int_res (ioremap_src_ok k) (ioremap_wdt_ok k) (- ENOMEM)
      else
        (match arch cfg with
         | TEGRA_2x =>
             if last_reset_wdt k
             then emit (DevInfo "last reset due to watchdog timeout")
             else ret tt
         | TEGRA_3x => ret tt
         end) ;;
        tegra_wdt_disable ;;
        writel TIMER_PCR_INTR WDT_TIMER TIMER_PCR ;;
        (match arch cfg with
         | TEGRA_2x => ret tt
         | TEGRA_3x => writel WDT_CMD_START_COUNTER WDT_SOURCE WDT_CMD
         end) ;;
        probe_irq pdev k.

End Driver.

(** ** Sessions and the life of an instance *)

(** One system call on the watchdog device node.  A [write] or [ioctl]
    comes with the caller's memory at the time of the call. *)
Inductive call :=
| sys_open
| sys_close
| sys_write (m : gmap Z ucell) (data len : Z)
| sys_ioctl (m : gmap Z ucell) (cmd : ioctl_cmd) (arg : Z).

Definition run_call (cfg : kconfig) (c : call) : M Z :=
  match c with
  | sys_open => tegra_wdt_open cfg
  | sys_close => tegra_wdt_release cfg
  | sys_write m data len => fun s => tegra_wdt_write cfg data len (set_user m s)
  | sys_ioctl m cmd arg => fun s => tegra_wdt_ioctl cfg cmd arg (set_user m s)
  end.

Definition run_calls (cfg : kconfig) (cs : list call) (s : world) : world :=
  fold_left (fun s c => snd (run_call cfg c s)) cs s.

(** Everything that can happen to a probed instance: system calls,
    the timer interrupt ([status_reg] is what the Tegra 3 handler reads
    from [WDT_STATUS]), the deferred tasklet, the reboot notifier and
    suspend / resume. *)
Inductive event :=
| ev_call (c : call)
| ev_irq (irqn status_reg : Z)
| ev_tasklet
| ev_notify (code : Z)
| ev_suspend
| ev_resume.

(** The instance together with the VFS's knowledge of whether a file
    on the device node is open: [release], [write] and [ioctl] are only
    ever called on an open file. *)
Record system := System { kernel : world; file_open : bool }.

Definition sys_step (cfg : kconfig) (e : event) (s : system) : option system :=
  match e with
  | ev_call sys_open =>
      let (r, w) := tegra_wdt_open cfg (kernel s) in
      Some (System w (file_open s || (r =? 0)))
  | ev_call sys_close =>
      if file_open s
      then Some (System (snd (tegra_wdt_release cfg (kernel s))) false)
      else None
  | ev_call c =>
      if file_open s
      then Some (System (snd (run_call cfg c (kernel s))) true)
      else None
  | ev_irq irqn status_reg =>
      match arch cfg with
      | TEGRA_2x => Some (System (snd (tegra_wdt_interrupt_2x cfg irqn (kernel s))) (file_open s))
      | TEGRA_3x => Some (System (snd (tegra_wdt_interrupt_slot cfg status_reg (kernel s))) (file_open s))
      end
  | ev_tasklet => Some (System (snd (tegra_wdt_do_tasklet (kernel s))) (file_open s))
  | ev_notify code => Some (System (snd (tegra_wdt_notify cfg code (kernel s))) (file_open s))
  | ev_suspend => Some (System (snd (tegra_wdt_suspend cfg (kernel s))) (file_open s))
  | ev_resume => Some (System (snd (tegra_wdt_resume cfg (kernel s))) (file_open s))
  end.

(** States an instance can be in: after a successful probe, and after
    any event from such a state. *)
Inductive reachable (cfg : kconfig) : system -> Prop :=
| reach_probe pdev k w0 w :
    tegra_wdt_probe cfg pdev k w0 = (Probed, w) ->
    reachable cfg (System w false)
| reach_step s e s' :
    reachable cfg s ->
    sys_step cfg e s = Some s' ->
    reachable cfg s'.

(** Observations used by the statements below. *)
Definition users_flag (w : tegra_wdt) : bool := Z.testbit (users w) 1.
Definition has_flag (flag : Z) (w : tegra_wdt) : bool := nonzero (Z.land (status w) flag).
Definition timeout_in_range (w : tegra_wdt) : Prop :=
  MIN_WDT_PERIOD <= timeout w <= MAX_WDT_PERIOD.

(** The register writes by which a ping restarts the countdown. *)
Definition ping_writes (cfg : kconfig) (w : tegra_wdt) : list io_event :=
  match arch cfg with
  | TEGRA_2x =>
      [Writel (to_u32 (Z.lor (to_u32 (to_u32 (timeout w * 1000000) / 2))
                             (Z.lor TIMER_EN TIMER_PERIODIC))) WDT_TIMER TIMER_PTV;
       Writel (to_u32 (Z.lor (Z.lor WDT_EN WDT_SEL_TMR1) WDT_SYS_RST)) WDT_SOURCE 0]
  | TEGRA_3x =>
      [Writel WDT_CMD_START_COUNTER WDT_SOURCE WDT_CMD]
  end.

Definition is_writel (e : io_event) : bool :=
  match e with Writel _ _ _ => true | _ => false end.

(** ** Remove *)

(** [tegra_wdt_remove].  [res_int_base_held] is [wdt->res_int_base],
    the interrupt-controller resource probe stored in the instance;
    unregistering the notifier and the misc device leaves no trace in
    the log. *)
Definition tegra_wdt_remove (cfg : kconfig) (res_int_base_held : bool) : M Z :=
  tegra_wdt_disable cfg ;;
  wdt <- get_wdt ;;
  (if irq wdt =? -1 then ret tt else emit (FreeIrq (irq wdt))) ;;
  emit (Iounmap WDT_SOURCE) ;;
  emit (Iounmap WDT_TIMER) ;;
  (if int_base wdt then emit (Iounmap INT_BASE) else ret tt) ;;
  emit (ReleaseMemRegion WDT_SOURCE) ;;
  emit (ReleaseMemRegion WDT_TIMER) ;;
  (if res_int_base_held then emit (ReleaseMemRegion INT_BASE) else ret tt) ;;
  emit Kfree ;;
  ret 0.

(** Whether probe makes this device the kernel-heartbeat owner. *)
Definition heartbeat_owner (cfg : kconfig) (pdev : platform_device) : bool :=
  enable_heartbeat cfg
  && match arch cfg with TEGRA_2x => true | TEGRA_3x => id pdev =? 0 end.

(** The instance a successful probe leaves behind. *)
Definition probed_wdt (cfg : kconfig) (pdev : platform_device) : tegra_wdt :=
  let hb := heartbeat_owner cfg pdev in
  TegraWdt
    (if hb then Z.setbit 0 1 else 0)
    (fiq_debugger cfg && bool_decide (is_Some (res_irq pdev)))
    (Z.rem (TMR_SRC_START + id pdev) 10)
    (if hb then heartbeat cfg else 0)
    (if hb then Z.lor WDT_ENABLED WDT_KERNEL_HEARTBEAT else WDT_DISABLED)
    0
    (match res_irq pdev with Some n => to_int n | None => 0 end)
    0.

(** Exclusive use: while a file is open the users flag is set, and a
    heartbeat-owned instance has the flag set without any file. *)
Definition session_inv (st : system) : Prop :=
  (file_open st = true -> users_flag (dev (kernel st)) = true)
  /\ (has_flag WDT_KERNEL_HEARTBEAT (dev (kernel st)) = true ->
      users_flag (dev (kernel st)) = true /\ file_open st = false).

(** A second Tegra 3 device for the scenarios. *)
Definition wdt_device3 : platform_device := PlatformDevice 3 true true None false.

(** ** Derived notions used by the statements *)

(** The state [WDIOC_SETTIMEOUT] reaches before it reports back. *)
Definition reprogrammed (cfg : kconfig) (t : Z) (s : world) : world :=
  let sd := snd (tegra_wdt_disable cfg s) in
  snd (tegra_wdt_enable cfg (set_dev (set_timeout t (dev sd)) sd)).

Definition enabled_and_armed (cfg : kconfig) (s : world) : Prop :=
  has_flag WDT_ENABLED (dev s) = true /\ armed (arch cfg) (hw s) = true.

(** An instance nobody has enabled yet: neither [WDT_ENABLED] nor
    [WDT_KERNEL_HEARTBEAT] is set and the hardware is not armed. *)
Definition cold (cfg : kconfig) (s : world) : Prop :=
  has_flag WDT_ENABLED (dev s) = false
  /\ has_flag WDT_KERNEL_HEARTBEAT (dev s) = false
  /\ armed (arch cfg) (hw s) = false.

(** Invariant of the reachable states: the timeout is within bounds,
    unless the instance is still cold and no file is open on it. *)
Definition timeout_ok (cfg : kconfig) (st : system) : Prop :=
  timeout_in_range (dev (kernel st))
  \/ (file_open st = false /\ cold cfg (kernel st)).

(** What a successful probe leaves: either the heartbeat owner was
    enabled with the module timeout, or the instance is disabled and
    the timer period is as it was on entry. *)
Definition probed_from (cfg : kconfig) (s w : world) : Prop :=
  timeout (dev w) = heartbeat cfg
  \/ (status (dev w) = WDT_DISABLED /\ ptv (hw w) = ptv (hw s)).

(** ** Scenarios *)

(** A Tegra 2 build with the default 60 s heartbeat, without and with
    the no-way-out policy, and a Tegra 3 build with the kernel
    heartbeat. *)
Definition tegra2 : kconfig :=
  Kconfig TEGRA_2x false false 155 WDT_DEFAULT_TIME false.
Definition tegra2_nowayout : kconfig :=
  Kconfig TEGRA_2x false false 155 WDT_DEFAULT_TIME true.
Definition tegra3_heartbeat : kconfig :=
  Kconfig TEGRA_3x false true 155 WDT_DEFAULT_TIME false.

(** The legacy single watchdog device (id -1) with all its resources,
    a kernel that grants every request, and the machine at power-on. *)
Definition wdt_device : platform_device := PlatformDevice (-1) true true (Some 32) false.
Definition kernel_ok : kernel_env :=
  KernelEnv true true true true true true true false 0 0 0.
Definition power_on : world := World kzalloc_wdt (TimerHw 0 0 0 false 0) [] ∅.

Definition probed (cfg : kconfig) : world :=
  snd (tegra_wdt_probe cfg wdt_device kernel_ok power_on).
Definition opened (cfg : kconfig) : world :=
  snd (tegra_wdt_open cfg (probed cfg)).

(** User memory holding the three bytes of "okV" at address 100, and
    user memory holding one [int] at address 200. *)
Definition buf_okV : gmap Z ucell :=
  <[100 := UCell 111 false]> (<[101 := UCell 107 false]> (<[102 := UCell 86 false]> ∅)).
Definition buf_x : gmap Z ucell := <[100 := UCell 120 false]> ∅.
Definition int_arg (v : Z) (w : bool) : gmap Z ucell := <[200 := UCell v w]> ∅.

(** The opened Tegra 2 instance after [WDIOC_SETOPTIONS] with
    [WDIOS_DISABLECARD]. *)
Definition card_disabled : world :=
  snd (tegra_wdt_ioctl tegra2 WDIOC_SETOPTIONS 200
         (set_user (int_arg WDIOS_DISABLECARD true) (opened tegra2))).

(** Further builds and devices: the Tegra 2 heartbeat build, the
    Tegra 3 FIQ debugger build, device 0 without and with an
    interrupt-controller window, a kernel that refuses that window,
    and device 0 as probed. *)
Definition tegra2_heartbeat : kconfig :=
  Kconfig TEGRA_2x false true 155 WDT_DEFAULT_TIME false.
Definition tegra3_fiq : kconfig :=
  Kconfig TEGRA_3x true false 155 WDT_DEFAULT_TIME false.
Definition wdt_device0 : platform_device := PlatformDevice 0 true true (Some 32) false.
Definition wdt_device0_fiq : platform_device := PlatformDevice 0 true true (Some 32) true.
Definition kernel_no_int_base : kernel_env :=
  KernelEnv true true true true true false true false 0 0 0.
Definition probed3 (cfg : kconfig) : world :=
  snd (tegra_wdt_probe cfg wdt_device0 kernel_ok power_on).

(** * Properties *)

Ltac mred :=
  cbn [bind ret get_wdt modify_wdt emit writel get_user
       dev hw log user set_dev set_hw set_log set_user
       users int_base tmrsrc timeout status way_out_ok irq irq_counter
       set_users set_int_base set_tmrsrc set_timeout set_status
       set_way_out_ok set_irq set_irq_counter fst snd] in *.

Ltac munfold :=
  unfold tegra_wdt_enable, tegra_wdt_disable, tegra_wdt_ping, bind, ret,
    get_wdt, modify_wdt, emit, writel in *.

Lemma bind_eq {A B} (m : M A) (k : A -> M B) s :
  bind m k s = k (fst (m s)) (snd (m s)).
Proof. unfold bind. destruct (m s); reflexivity. Qed.

Ltac mbind := repeat (rewrite bind_eq; cbn beta).

Lemma testbit_timer_en (x : Z) :
  Z.testbit (to_u32 (Z.lor x (Z.lor TIMER_EN TIMER_PERIODIC))) 31 = true.
Proof.
  unfold to_u32. rewrite Z.mod_pow2_bits_low by lia.
  rewrite Z.lor_spec. replace (Z.testbit (Z.lor TIMER_EN TIMER_PERIODIC) 31) with true by reflexivity.
  apply orb_true_r.
Qed.

(** Register writes the driver performs, read through the hardware model. *)
Lemma hw_write_ptv a v h :
  hw_write a v WDT_TIMER TIMER_PTV h
  = TimerHw v (src h) (unlock h) (counter_on h) (iep_class h).
Proof. destruct a; reflexivity. Qed.

Lemma hw_write_pcr a v h : hw_write a v WDT_TIMER TIMER_PCR h = h.
Proof. destruct a; reflexivity. Qed.

Lemma hw_write_src_2x v h :
  hw_write TEGRA_2x v WDT_SOURCE 0 h
  = TimerHw (ptv h) v (unlock h) (counter_on h) (iep_class h).
Proof. reflexivity. Qed.

Lemma hw_write_cfg_3x v h :
  hw_write TEGRA_3x v WDT_SOURCE WDT_CFG h
  = TimerHw (ptv h) v (unlock h) (counter_on h) (iep_class h).
Proof. reflexivity. Qed.

Lemma hw_write_unlock_3x v h :
  hw_write TEGRA_3x v WDT_SOURCE WDT_UNLOCK h
  = TimerHw (ptv h) (src h) v (counter_on h) (iep_class h).
Proof. reflexivity. Qed.

Lemma hw_write_start_3x h :
  hw_write TEGRA_3x WDT_CMD_START_COUNTER WDT_SOURCE WDT_CMD h
  = TimerHw (ptv h) (src h) (unlock h) true (iep_class h).
Proof. reflexivity. Qed.

Lemma hw_write_disable_3x h :
  unlock h = WDT_UNLOCK_PATTERN ->
  hw_write TEGRA_3x WDT_CMD_DISABLE_COUNTER WDT_SOURCE WDT_CMD h
  = TimerHw (ptv h) (src h) 0 false (iep_class h).
Proof.
  intros Hu. unfold hw_write. cbn [Z.eqb WDT_CFG WDT_CMD WDT_UNLOCK Pos.eqb].
  rewrite Hu. reflexivity.
Qed.

Lemma hw_write_iep a v h :
  hw_write a v INT_BASE ICTLR_IEP_CLASS h
  = TimerHw (ptv h) (src h) (unlock h) (counter_on h) v.
Proof. destruct a; reflexivity. Qed.

Ltac hwred :=
  rewrite ?hw_write_ptv, ?hw_write_pcr, ?hw_write_src_2x, ?hw_write_cfg_3x,
    ?hw_write_unlock_3x, ?hw_write_start_3x, ?hw_write_iep;
  cbn [ptv src unlock counter_on iep_class].

Section Backend.

Variable cfg : kconfig.

Lemma enable_dev s : dev (snd (tegra_wdt_enable cfg s)) = dev s.
Proof. munfold. destruct (arch cfg); reflexivity. Qed.

Lemma enable_user s : user (snd (tegra_wdt_enable cfg s)) = user s.
Proof. munfold. destruct (arch cfg); reflexivity. Qed.

Lemma enable_armed s : armed (arch cfg) (hw (snd (tegra_wdt_enable cfg s))) = true.
Proof.
  munfold. destruct (arch cfg); mred; unfold armed; hwred.
  - rewrite testbit_timer_en. reflexivity.
  - rewrite testbit_timer_en. reflexivity.
Qed.

Lemma disable_dev s : dev (snd (tegra_wdt_disable cfg s)) = dev s.
Proof. munfold. destruct (arch cfg); reflexivity. Qed.

Lemma disable_user s : user (snd (tegra_wdt_disable cfg s)) = user s.
Proof. munfold. destruct (arch cfg); reflexivity. Qed.

Lemma disable_ptv s : ptv (hw (snd (tegra_wdt_disable cfg s))) = 0.
Proof. munfold. destruct (arch cfg); mred; hwred; reflexivity. Qed.

Lemma disable_armed s : armed (arch cfg) (hw (snd (tegra_wdt_disable cfg s))) = false.
Proof.
  pose proof (disable_ptv s) as Hp. unfold armed.
  destruct (arch cfg); rewrite Hp; reflexivity.
Qed.

(** On Tegra 3 the unlock pattern is in place when the disable command
    arrives, so the counter is stopped as well. *)
Lemma disable_counter_3x s :
  arch cfg = TEGRA_3x ->
  counter_on (hw (snd (tegra_wdt_disable cfg s))) = false.
Proof.
  intros Ha. munfold. rewrite Ha. mred. hwred.
  rewrite hw_write_disable_3x by reflexivity. reflexivity.
Qed.

Lemma ping_dev s :
  dev (snd (tegra_wdt_ping cfg s))
  = match arch cfg with
    | TEGRA_2x =>
        if nonzero (irq_counter (dev s)) then set_irq_counter 0 (dev s) else dev s
    | TEGRA_3x => dev s
    end.
Proof.
  unfold tegra_wdt_ping. destruct (arch cfg) eqn:Ha; [|reflexivity].
  mbind. mred. rewrite enable_dev.
  destruct (nonzero (irq_counter (dev s))); mbind; mred; rewrite enable_dev; reflexivity.
Qed.

Lemma ping_session s :
  let w' := dev (snd (tegra_wdt_ping cfg s)) in
  users w' = users (dev s) /\ timeout w' = timeout (dev s)
  /\ status w' = status (dev s) /\ way_out_ok w' = way_out_ok (dev s).
Proof.
  cbn zeta. rewrite ping_dev.
  destruct (arch cfg), (nonzero (irq_counter (dev s))); auto.
Qed.

Lemma ping_user s : user (snd (tegra_wdt_ping cfg s)) = user s.
Proof.
  unfold tegra_wdt_ping. destruct (arch cfg) eqn:Ha; [|reflexivity].
  mbind. mred. rewrite enable_dev.
  destruct (nonzero (irq_counter (dev s))); mbind; mred; apply enable_user.
Qed.

Lemma ping_hw_2x s :
  arch cfg = TEGRA_2x ->
  hw (snd (tegra_wdt_ping cfg s)) = hw (snd (tegra_wdt_enable cfg s)).
Proof.
  intros Ha. unfold tegra_wdt_ping. rewrite Ha.
  mbind. mred. rewrite enable_dev.
  destruct (nonzero (irq_counter (dev s))); mbind; mred; [|reflexivity].
  apply hw_write_pcr.
Qed.

(** A ping keeps armed hardware armed; on Tegra 2 it arms it. *)
Lemma ping_armed s :
  armed (arch cfg) (hw s) = true \/ arch cfg = TEGRA_2x ->
  armed (arch cfg) (hw (snd (tegra_wdt_ping cfg s))) = true.
Proof.
  destruct (arch cfg) eqn:Ha.
  - intros _. rewrite ping_hw_2x by assumption. rewrite <- Ha. apply enable_armed.
  - intros [H|H]; [|discriminate].
    unfold tegra_wdt_ping. rewrite Ha. munfold. mred. rewrite Ha.
    unfold armed in *. hwred. apply andb_true_iff in H as [-> _]. reflexivity.
Qed.

(** The log after a ping: the register writes restarting the countdown,
    then at most the interrupt acknowledgement of Tegra 2. *)
Lemma ping_log s :
  exists tail,
    log (snd (tegra_wdt_ping cfg s)) = log s ++ ping_writes cfg (dev s) ++ tail
    /\ (tail = [] \/ tail = [Writel TIMER_PCR_INTR WDT_TIMER TIMER_PCR; EnableIrq (irq (dev s))]).
Proof.
  unfold tegra_wdt_ping, ping_writes. destruct (arch cfg) eqn:Ha.
  - mbind. mred. rewrite enable_dev.
    assert (He : log (snd (tegra_wdt_enable cfg s)) = log s ++ ping_writes cfg (dev s)).
    { unfold tegra_wdt_enable, ping_writes. rewrite Ha. munfold. mred.
      rewrite <- app_assoc. reflexivity. }
    unfold ping_writes in He. rewrite Ha in He.
    destruct (nonzero (irq_counter (dev s))).
    + eexists. split; [|right; reflexivity].
      mbind. mred. rewrite He. rewrite <- !app_assoc. reflexivity.
    + exists []. split; [|left; reflexivity]. mred. rewrite He. reflexivity.
  - exists []. split; [|left; reflexivity]. reflexivity.
Qed.

End Backend.

(** ** Status flags and the users bit *)

Lemma land_bit_testbit (x k : Z) :
  0 <= k -> nonzero (Z.land x (Z.shiftl 1 k)) = Z.testbit x k.
Proof.
  intros Hk. unfold nonzero. rewrite Z.shiftl_1_l.
  destruct (Z.testbit x k) eqn:Hb.
  - apply negb_true_iff, Z.eqb_neq. intros H0.
    assert (Hx : Z.testbit (Z.land x (2 ^ k)) k = true).
    { rewrite Z.land_spec, Hb, Z.pow2_bits_eqb, Z.eqb_refl by lia. reflexivity. }
    rewrite H0, Z.bits_0 in Hx. discriminate.
  - apply negb_false_iff, Z.eqb_eq. apply Z.bits_inj'. intros m Hm.
    rewrite Z.land_spec, Z.bits_0, Z.pow2_bits_eqb by lia.
    destruct (Z.eqb_spec k m) as [->|]; [rewrite Hb|]; auto using andb_false_r.
Qed.

Lemma has_flag_enabled w : has_flag WDT_ENABLED w = Z.testbit (status w) 1.
Proof. apply (land_bit_testbit (status w) 1). lia. Qed.

Lemma has_flag_disabled w : has_flag WDT_DISABLED w = Z.testbit (status w) 0.
Proof. apply (land_bit_testbit (status w) 0). lia. Qed.

Lemma has_flag_heartbeat w : has_flag WDT_KERNEL_HEARTBEAT w = Z.testbit (status w) 2.
Proof. apply (land_bit_testbit (status w) 2). lia. Qed.

Lemma setbit_set (u k : Z) : 0 <= k -> Z.testbit u k = true -> Z.setbit u k = u.
Proof.
  intros Hk Hb. apply Z.bits_inj'. intros m Hm.
  rewrite Z.setbit_eqb by lia.
  destruct (Z.eqb_spec k m) as [->|]; [rewrite Hb|]; reflexivity.
Qed.

Lemma world_eta s : World (dev s) (hw s) (log s) (user s) = s.
Proof. destruct s; reflexivity. Qed.

Lemma wdt_eta w :
  TegraWdt (users w) (int_base w) (tmrsrc w) (timeout w) (status w)
    (way_out_ok w) (irq w) (irq_counter w) = w.
Proof. destruct w; reflexivity. Qed.

Section Protocol.

Variable cfg : kconfig.

(** *** write *)

Lemma write_world s data len :
  nonzero len = true ->
  tegra_wdt_write cfg data len s
  = let sp := snd (tegra_wdt_ping cfg s) in
    match user s !! (data + len - 1) with
    | None => (- EFAULT, sp)
    | Some c =>
        (to_int len,
         set_dev (set_way_out_ok (if magic_char =? contents c mod 256 then 1 else 0) (dev sp)) sp)
    end.
Proof.
  intros Hl. unfold tegra_wdt_write. rewrite Hl. mbind. mred.
  rewrite ping_user. destruct (user s !! (data + len - 1)); reflexivity.
Qed.

(** C3: every write of nonzero length pings the hardware -- its effect
    on the registers and on the log is that of [tegra_wdt_ping], the
    log growing by the register writes that restart the countdown --
    and, when the last byte of the buffer can be read, [way_out_ok] is
    set afterwards exactly when that byte is ['V']. *)
Theorem C3_write_pings_and_records_magic s data len :
  0 < len ->
  let s' := snd (tegra_wdt_write cfg data len s) in
  (hw s' = hw (snd (tegra_wdt_ping cfg s))
   /\ log s' = log (snd (tegra_wdt_ping cfg s))
   /\ exists tail, log s' = log s ++ ping_writes cfg (dev s) ++ tail)
  /\ forall c, user s !! (data + len - 1) = Some c ->
       (way_out_ok (dev s') <> 0 <-> contents c mod 256 = magic_char).
Proof.
  intros Hlen. cbn zeta.
  assert (Hl : nonzero len = true) by (apply negb_true_iff, Z.eqb_neq; lia).
  rewrite write_world by assumption. cbn zeta.
  destruct (ping_log cfg s) as (tail & Hlog & _).
  split.
  - destruct (user s !! (data + len - 1)); cbn [snd]; mred; eauto.
  - intros c Hc. rewrite Hc. cbn [snd]. mred.
    destruct (Z.eqb_spec magic_char (contents c mod 256)) as [He|He].
    + split; [auto | discriminate].
    + split; [intros H; exfalso; apply H; reflexivity | intros H; congruence].
Qed.

(** C10: a write of length zero returns 0 and leaves the whole world as
    it was: no register is written, nothing is logged, and
    [way_out_ok] keeps its value. *)
Theorem C10_empty_write_changes_nothing s data :
  tegra_wdt_write cfg data 0 s = (0, s)
  /\ log (snd (tegra_wdt_write cfg data 0 s)) = log s
  /\ hw (snd (tegra_wdt_write cfg data 0 s)) = hw s
  /\ way_out_ok (dev (snd (tegra_wdt_write cfg data 0 s))) = way_out_ok (dev s).
Proof. repeat split; reflexivity. Qed.

(** *** open and release *)

Lemma open_busy s :
  users_flag (dev s) = true -> tegra_wdt_open cfg s = (- EBUSY, s).
Proof.
  intros Hu. unfold tegra_wdt_open, test_and_set_bit, bind.
  unfold users_flag in Hu. rewrite Hu. unfold ret. f_equal.
  rewrite setbit_set by (assumption || lia).
  unfold set_dev, set_users. rewrite wdt_eta. apply world_eta.
Qed.

Lemma open_free s :
  users_flag (dev s) = false ->
  let '(r, s') := tegra_wdt_open cfg s in
  r = 0
  /\ dev s' = TegraWdt (Z.setbit (users (dev s)) 1) (int_base (dev s)) (tmrsrc (dev s))
               (heartbeat cfg) (Z.lor (status (dev s)) WDT_ENABLED) 0
               (irq (dev s)) (irq_counter (dev s))
  /\ armed (arch cfg) (hw s') = true
  /\ user s' = user s.
Proof.
  intros Hu. unfold tegra_wdt_open, test_and_set_bit.
  unfold users_flag in Hu. unfold bind at 1. rewrite Hu.
  mbind. mred. rewrite enable_dev, enable_armed, enable_user. auto.
Qed.

Lemma release_users s : users_flag (dev (snd (tegra_wdt_release cfg s))) = false.
Proof.
  unfold tegra_wdt_release. mbind. mred. unfold users_flag.
  cbn [users set_users]. apply Z.clearbit_eq.
Qed.

(** C4: open on an instance whose users flag (bit 1 of [users], the bit
    [test_and_set_bit] works on) is set fails with [-EBUSY] and changes
    nothing; otherwise it returns 0, sets that flag, clears
    [way_out_ok], adds [WDT_ENABLED] to the status, sets the timeout
    to the [heartbeat] module parameter and arms the hardware.  After a
    release the next open succeeds. *)
Theorem C4_open_exclusive s :
  (if users_flag (dev s)
   then tegra_wdt_open cfg s = (- EBUSY, s)
   else
     let '(r, s') := tegra_wdt_open cfg s in
     r = 0
     /\ users_flag (dev s') = true
     /\ way_out_ok (dev s') = 0
     /\ status (dev s') = Z.lor (status (dev s)) WDT_ENABLED
     /\ has_flag WDT_ENABLED (dev s') = true
     /\ timeout (dev s') = heartbeat cfg
     /\ armed (arch cfg) (hw s') = true)
  /\ fst (tegra_wdt_open cfg (snd (tegra_wdt_release cfg s))) = 0.
Proof.
  split.
  - destruct (users_flag (dev s)) eqn:Hu.
    + apply open_busy; assumption.
    + pose proof (open_free s Hu) as H.
      destruct (tegra_wdt_open cfg s) as [r s'].
      destruct H as (-> & Hd & Ha & _).
      rewrite has_flag_enabled. rewrite Hd. unfold users_flag. cbn [users way_out_ok status timeout].
      repeat split; try assumption.
      * apply Z.setbit_eq. lia.
      * rewrite Z.lor_spec. apply orb_true_r.
  - pose proof (open_free _ (release_users s)) as H.
    destruct (tegra_wdt_open cfg (snd (tegra_wdt_release cfg s))) as [r s'].
    apply H.
Qed.

(** *** ioctl *)

Lemma put_user_frame v a s :
  dev (snd (put_user v a s)) = dev s
  /\ hw (snd (put_user v a s)) = hw s
  /\ log (snd (put_user v a s)) = log s.
Proof. unfold put_user. destruct (user s !! a) as [[? []]|]; auto. Qed.

Lemma put_user_ok v a s c :
  user s !! a = Some c -> writable c = true ->
  put_user v a s = (0, set_user (<[a := UCell v true]> (user s)) s).
Proof. intros Hc Hw. unfold put_user. rewrite Hc, Hw. reflexivity. Qed.

Lemma put_user_fault v a s :
  (forall c, user s !! a = Some c -> writable c = false) ->
  put_user v a s = (- EFAULT, s).
Proof.
  intros H. unfold put_user. destruct (user s !! a) as [c|] eqn:Hc; [|reflexivity].
  rewrite (H c eq_refl). reflexivity.
Qed.

Lemma copy_to_user_frame objs a s :
  dev (snd (copy_to_user objs a s)) = dev s
  /\ hw (snd (copy_to_user objs a s)) = hw s
  /\ log (snd (copy_to_user objs a s)) = log s.
Proof.
  revert a s. induction objs as [|[sz v] rest IH]; intros a s; [auto|].
  cbn [copy_to_user]. rewrite bind_eq.
  destruct (put_user_frame v a s) as (Hd & Hh & Hl).
  destruct (fst (put_user v a s) =? 0).
  - destruct (IH (a + sz) (snd (put_user v a s))) as (-> & -> & ->). auto.
  - cbn [ret snd]. auto.
Qed.

Lemma to_int_id t : - 2 ^ 31 <= t < 2 ^ 31 -> to_int t = t.
Proof.
  intros Ht. unfold to_int. cbn zeta.
  destruct (Z.ltb_spec (t mod 2 ^ 32) (2 ^ 31)) as [H|H].
  - destruct (Z.neg_nonneg_cases t) as [Hn|Hp].
    + exfalso. replace t with (t + 2 ^ 32 - 1 * 2 ^ 32) in H by lia.
      rewrite Zminus_mod, Z_mod_mult, Z.sub_0_r, Zmod_mod in H.
      rewrite Z.mod_small in H; lia.
    + apply Z.mod_small. lia.
  - destruct (Z.neg_nonneg_cases t) as [Hn|Hp].
    + replace t with (t + 2 ^ 32 - 1 * 2 ^ 32) at 1 by lia.
      rewrite Zminus_mod, Z_mod_mult, Z.sub_0_r, Zmod_mod.
      rewrite Z.mod_small; lia.
    + rewrite Z.mod_small in H; lia.
Qed.

Lemma clamp_range v : MIN_WDT_PERIOD <= clamp v MIN_WDT_PERIOD MAX_WDT_PERIOD <= MAX_WDT_PERIOD.
Proof. unfold clamp, MIN_WDT_PERIOD, MAX_WDT_PERIOD. lia. Qed.

Lemma reprogrammed_facts t s :
  dev (reprogrammed cfg t s) = set_timeout t (dev s)
  /\ user (reprogrammed cfg t s) = user s
  /\ armed (arch cfg) (hw (reprogrammed cfg t s)) = true.
Proof.
  unfold reprogrammed. cbn zeta.
  rewrite enable_dev, enable_user, enable_armed. mred.
  rewrite disable_dev, disable_user. auto.
Qed.

Lemma settimeout_world s arg c :
  user s !! arg = Some c ->
  tegra_wdt_ioctl cfg WDIOC_SETTIMEOUT arg s
  = let t := clamp (to_int (contents c)) MIN_WDT_PERIOD MAX_WDT_PERIOD in
    put_user t arg (reprogrammed cfg t s).
Proof.
  intros Hc. unfold tegra_wdt_ioctl. rewrite bind_eq. mred. rewrite Hc.
  cbn [fmap option_fmap option_map]. mbind. mred.
  unfold reprogrammed. cbn zeta. rewrite enable_dev. mred. reflexivity.
Qed.

(** C5: [WDIOC_SETTIMEOUT] with a requested value [t] applies [t]
    itself when 5 <= t <= 1000, 5 when t < 5 and 1000 when t > 1000;
    it stores the applied value back through the argument pointer, and
    a following [WDIOC_GETTIMEOUT] stores the same value. *)
Theorem C5_settimeout_clamps_and_reports s arg c :
  user s !! arg = Some c -> writable c = true ->
  - 2 ^ 31 <= contents c < 2 ^ 31 ->
  let t := contents c in
  let applied :=
    if t <? MIN_WDT_PERIOD then MIN_WDT_PERIOD
    else if MAX_WDT_PERIOD <? t then MAX_WDT_PERIOD else t in
  let '(r, s1) := tegra_wdt_ioctl cfg WDIOC_SETTIMEOUT arg s in
  r = 0
  /\ timeout (dev s1) = applied
  /\ contents <$> user s1 !! arg = Some applied
  /\ (MIN_WDT_PERIOD <= t <= MAX_WDT_PERIOD -> applied = t)
  /\ forall m arg' c',
       m !! arg' = Some c' -> writable c' = true ->
       let '(r2, s2) := tegra_wdt_ioctl cfg WDIOC_GETTIMEOUT arg' (set_user m s1) in
       r2 = 0 /\ contents <$> user s2 !! arg' = Some applied
       /\ dev s2 = dev s1 /\ hw s2 = hw s1.
Proof.
  intros Hc Hw Ht. cbn zeta.
  rewrite (settimeout_world s arg c Hc). cbn zeta. rewrite to_int_id by assumption.
  set (t := contents c) in *.
  assert (Hcl : clamp t MIN_WDT_PERIOD MAX_WDT_PERIOD
                = if t <? MIN_WDT_PERIOD then MIN_WDT_PERIOD
                  else if MAX_WDT_PERIOD <? t then MAX_WDT_PERIOD else t).
  { unfold clamp, MIN_WDT_PERIOD, MAX_WDT_PERIOD.
    destruct (Z.ltb_spec t 5); [lia|]. destruct (Z.ltb_spec 1000 t); lia. }
  rewrite <- Hcl. set (a := clamp t MIN_WDT_PERIOD MAX_WDT_PERIOD) in *.
  destruct (reprogrammed_facts a s) as (Hd & Hu & Ha).
  rewrite (put_user_ok a arg (reprogrammed cfg a s) c) by (rewrite ?Hu; assumption).
  mred. rewrite Hd. cbn [timeout set_timeout].
  repeat split.
  - rewrite lookup_insert_eq. reflexivity.
  - intros Hr. subst a. unfold clamp. lia.
  - intros m arg' c' Hc' Hw'.
    unfold tegra_wdt_ioctl. rewrite bind_eq. mred. rewrite Hd. cbn [timeout set_timeout].
    erewrite put_user_ok by (mred; eassumption).
    mred. rewrite lookup_insert_eq. auto.
Qed.

Lemma setoptions_world s arg c :
  user s !! arg = Some c ->
  tegra_wdt_ioctl cfg WDIOC_SETOPTIONS arg s
  = let option := to_int (contents c) in
    if nonzero (Z.land option WDIOS_DISABLECARD) && negb (nowayout cfg)
    then
      let s1 := set_dev (set_status (Z.lor (Z.land (status (dev s)) (Z.lnot WDT_ENABLED))
                                           WDT_DISABLED) (dev s)) s in
      (0, snd (tegra_wdt_disable cfg s1))
    else if nonzero (Z.land option WDIOS_ENABLECARD)
    then
      let s1 := snd (tegra_wdt_enable cfg s) in
      (0, set_dev (set_status (Z.land (Z.lor (status (dev s)) WDT_ENABLED)
                                      (Z.lnot WDT_DISABLED)) (dev s)) s1)
    else (- EINVAL, s).
Proof.
  intros Hc. unfold tegra_wdt_ioctl. rewrite bind_eq. mred. rewrite Hc.
  cbn [fmap option_fmap option_map]. cbn zeta.
  destruct (nonzero (Z.land (to_int (contents c)) WDIOS_DISABLECARD) && negb (nowayout cfg)).
  - mbind. mred. reflexivity.
  - destruct (nonzero (Z.land (to_int (contents c)) WDIOS_ENABLECARD)); [|reflexivity].
    mbind. mred. rewrite enable_dev. reflexivity.
Qed.

Lemma ioctl_get_fault cmd s arg :
  cmd = WDIOC_SETTIMEOUT \/ cmd = WDIOC_SETOPTIONS ->
  user s !! arg = None ->
  tegra_wdt_ioctl cfg cmd arg s = (- EFAULT, s).
Proof.
  intros [-> | ->] Hn; unfold tegra_wdt_ioctl; rewrite bind_eq; mred; rewrite Hn; reflexivity.
Qed.

(** *** release *)

Lemma release_world s :
  tegra_wdt_release cfg s
  = let free s := set_dev (set_users (Z.clearbit (users (dev s)) 1) (dev s)) s in
    if has_flag WDT_ENABLED (dev s) && negb (nowayout cfg)
    then
      if nonzero (way_out_ok (dev s))
      then
        let sd := snd (tegra_wdt_disable cfg s) in
        (0, free (set_dev (set_status WDT_DISABLED (dev sd)) sd))
      else
        (0, free (set_log (log s ++ [DevInfo "No Magic Close received, watchdog not disabled!"]) s))
    else if nowayout cfg
    then (0, free (set_log (log s ++ [DevInfo "No way out is enabled, watchdog not disabled!"]) s))
    else (0, free s).
Proof.
  unfold tegra_wdt_release, has_flag. mbind. mred. cbn zeta.
  destruct (nonzero (Z.land (status (dev s)) WDT_ENABLED) && negb (nowayout cfg)).
  - destruct (nonzero (way_out_ok (dev s))); mbind; mred; reflexivity.
  - destruct (nowayout cfg); mred; reflexivity.
Qed.

(** C2: without the no-way-out policy, on an enabled and armed
    instance, a write whose last byte is ['V'] followed by a close
    disarms the hardware and leaves the status [WDT_DISABLED]; a write
    whose last byte is something else followed by a close leaves the
    hardware armed and the status, with [WDT_ENABLED] in it, as it
    was. *)
Theorem C2_magic_close s data len c :
  nowayout cfg = false ->
  has_flag WDT_ENABLED (dev s) = true ->
  armed (arch cfg) (hw s) = true ->
  0 < len ->
  user s !! (data + len - 1) = Some c ->
  let s1 := snd (tegra_wdt_write cfg data len s) in
  let '(r, s2) := tegra_wdt_release cfg s1 in
  r = 0
  /\ if contents c mod 256 =? magic_char
     then status (dev s2) = WDT_DISABLED
          /\ has_flag WDT_ENABLED (dev s2) = false
          /\ armed (arch cfg) (hw s2) = false
     else status (dev s2) = status (dev s)
          /\ has_flag WDT_ENABLED (dev s2) = true
          /\ hw s2 = hw s1
          /\ armed (arch cfg) (hw s2) = true.
Proof.
  intros Hn He Ha Hlen Hc. cbn zeta.
  assert (Hl : nonzero len = true) by (apply negb_true_iff, Z.eqb_neq; lia).
  rewrite write_world by assumption. cbn zeta. rewrite Hc. cbn [snd].
  destruct (ping_session cfg s) as (_ & _ & Hst & _).
  pose proof (ping_armed cfg s (or_introl Ha)) as Hpa.
  set (sp := snd (tegra_wdt_ping cfg s)) in *.
  rewrite release_world. cbn zeta. unfold has_flag in *. mred.
  rewrite Hst, He, Hn. cbn [negb andb].
  rewrite (Z.eqb_sym (contents c mod 256)).
  destruct (magic_char =? contents c mod 256); cbn [nonzero Z.eqb negb]; mred.
  - rewrite disable_armed. auto.
  - rewrite Hst. auto.
Qed.

(** *** The no-way-out policy *)

Lemma enabled_lor st : Z.testbit (Z.lor st WDT_ENABLED) 1 = true.
Proof. rewrite Z.lor_spec. apply orb_true_r. Qed.

Lemma enabled_lor_land st :
  Z.testbit (Z.land (Z.lor st WDT_ENABLED) (Z.lnot WDT_DISABLED)) 1 = true.
Proof. rewrite Z.land_spec, enabled_lor. reflexivity. Qed.

Lemma ioctl_nowayout cmd arg s :
  nowayout cfg = true ->
  enabled_and_armed cfg s ->
  enabled_and_armed cfg (snd (tegra_wdt_ioctl cfg cmd arg s)).
Proof.
  intros Hn [He Ha]. unfold enabled_and_armed.
  destruct cmd.
  - cbn [tegra_wdt_ioctl].
    destruct (copy_to_user_frame ident arg s) as (-> & -> & _). auto.
  - cbn [tegra_wdt_ioctl]. destruct (put_user_frame 0 arg s) as (-> & -> & _). auto.
  - cbn [tegra_wdt_ioctl]. destruct (put_user_frame 0 arg s) as (-> & -> & _). auto.
  - cbn [tegra_wdt_ioctl]. mbind. mred.
    destruct (ping_session cfg s) as (_ & _ & Hst & _).
    unfold has_flag in *. rewrite Hst. split; [assumption|].
    apply ping_armed. auto.
  - destruct (user s !! arg) as [c|] eqn:Hc.
    + rewrite (settimeout_world s arg c Hc). cbn zeta.
      set (t := clamp _ _ _).
      destruct (put_user_frame t arg (reprogrammed cfg t s)) as (-> & -> & _).
      destruct (reprogrammed_facts t s) as (-> & _ & ->).
      unfold has_flag in *. auto.
    + rewrite ioctl_get_fault by auto. auto.
  - cbn [tegra_wdt_ioctl]. mbind. mred.
    destruct (put_user_frame (timeout (dev s)) arg s) as (-> & -> & _). auto.
  - destruct (user s !! arg) as [c|] eqn:Hc.
    + rewrite (setoptions_world s arg c Hc). cbn zeta. rewrite Hn.
      rewrite andb_false_r.
      destruct (nonzero (Z.land (to_int (contents c)) WDIOS_ENABLECARD)); [|auto].
      cbn [snd]. mred. rewrite has_flag_enabled. cbn [status set_status].
      rewrite enabled_lor_land, enable_armed. auto.
    + rewrite ioctl_get_fault by auto. auto.
  - auto.
Qed.

Lemma call_nowayout c s :
  nowayout cfg = true ->
  enabled_and_armed cfg s ->
  enabled_and_armed cfg (snd (run_call cfg c s)).
Proof.
  intros Hn [He Ha]. destruct c as [| |m data len|m cmd arg]; cbn [run_call].
  - destruct (users_flag (dev s)) eqn:Hu.
    + rewrite open_busy by assumption. split; assumption.
    + pose proof (open_free s Hu) as H.
      destruct (tegra_wdt_open cfg s) as [r s']. destruct H as (_ & Hd & Ha' & _).
      unfold enabled_and_armed. cbn [snd].
      split; [|assumption]. rewrite has_flag_enabled, Hd. apply enabled_lor.
  - rewrite release_world. cbn zeta. rewrite Hn, andb_false_r. split; assumption.
  - destruct (nonzero len) eqn:Hl.
    + rewrite write_world by assumption. cbn zeta.
      destruct (ping_session cfg (set_user m s)) as (_ & _ & Hst & _).
      pose proof (ping_armed cfg (set_user m s) (or_introl Ha)) as Hpa.
      unfold enabled_and_armed, has_flag in *.
      destruct (user (set_user m s) !! _); cbn [snd]; mred; rewrite Hst; auto.
    + unfold tegra_wdt_write. rewrite Hl. split; assumption.
  - apply ioctl_nowayout; [assumption|]. split; assumption.
Qed.

Lemma calls_nowayout cs s :
  nowayout cfg = true ->
  enabled_and_armed cfg s ->
  enabled_and_armed cfg (run_calls cfg cs s).
Proof.
  intros Hn. revert s. induction cs as [|c cs IH]; intros s Hs; [assumption|].
  cbn [run_calls fold_left]. apply IH. apply call_nowayout; assumption.
Qed.

(** C1: with the no-way-out policy set, an instance that is enabled
    with armed hardware stays so through every sequence of open, write,
    ioctl and close calls.  In particular a close touches neither the
    registers nor the status, whatever [way_out_ok] is, and
    [WDIOC_SETOPTIONS] carrying [WDIOS_DISABLECARD] leaves the hardware
    armed and the status enabled. *)
Theorem C1_nowayout_never_disables s :
  nowayout cfg = true ->
  has_flag WDT_ENABLED (dev s) = true ->
  armed (arch cfg) (hw s) = true ->
  (forall cs,
      has_flag WDT_ENABLED (dev (run_calls cfg cs s)) = true
      /\ armed (arch cfg) (hw (run_calls cfg cs s)) = true)
  /\ (hw (snd (tegra_wdt_release cfg s)) = hw s
      /\ status (dev (snd (tegra_wdt_release cfg s))) = status (dev s))
  /\ (forall m arg c,
        m !! arg = Some c ->
        nonzero (Z.land (to_int (contents c)) WDIOS_DISABLECARD) = true ->
        let s' := snd (tegra_wdt_ioctl cfg WDIOC_SETOPTIONS arg (set_user m s)) in
        armed (arch cfg) (hw s') = true
        /\ has_flag WDT_ENABLED (dev s') = true).
Proof.
  intros Hn He Ha. split; [|split].
  - intros cs. apply calls_nowayout; [assumption|]. split; assumption.
  - rewrite release_world. cbn zeta. rewrite Hn, andb_false_r. auto.
  - intros m arg c Hc _. cbn zeta.
    destruct (ioctl_nowayout WDIOC_SETOPTIONS arg (set_user m s) Hn) as [H1 H2];
      [split; assumption|]. auto.
Qed.

(** *** Copy failures *)

Lemma settimeout_put_fault s arg c :
  user s !! arg = Some c -> writable c = false ->
  tegra_wdt_ioctl cfg WDIOC_SETTIMEOUT arg s
  = (- EFAULT, reprogrammed cfg (clamp (to_int (contents c)) MIN_WDT_PERIOD MAX_WDT_PERIOD) s).
Proof.
  intros Hc Hw. rewrite (settimeout_world s arg c Hc). cbn zeta.
  apply put_user_fault. intros c'.
  destruct (reprogrammed_facts (clamp (to_int (contents c)) MIN_WDT_PERIOD MAX_WDT_PERIOD) s)
    as (_ & -> & _).
  rewrite Hc. intros [= <-]. assumption.
Qed.

(** C9, as the driver has it.  A user-space copy failure in write or
    in an ioctl other than [WDIOC_GETSUPPORT] returns [-EFAULT] and
    leaves status and [way_out_ok] as they were.  Moreover
    - nothing at all changes when [WDIOC_SETTIMEOUT] or
      [WDIOC_SETOPTIONS] cannot read its argument, or when
      [WDIOC_GETSTATUS], [WDIOC_GETBOOTSTATUS] or [WDIOC_GETTIMEOUT]
      cannot store its result;
    - a write of nonzero length that cannot read its last byte has
      already pinged the hardware: the timeout is as before and armed
      hardware stays armed, but the world is the one [tegra_wdt_ping]
      leaves, and on Tegra 2 the hardware is armed afterwards whatever
      it was before;
    - [WDIOC_SETTIMEOUT] that reads its argument but cannot store the
      result back has already applied it: the timeout is the clamped
      request and the hardware is armed afterwards, user memory being
      as before. *)
Theorem C9_copy_fault_effects s :
  (forall cmd arg,
      cmd = WDIOC_SETTIMEOUT \/ cmd = WDIOC_SETOPTIONS ->
      user s !! arg = None ->
      tegra_wdt_ioctl cfg cmd arg s = (- EFAULT, s))
  /\ (forall cmd arg,
        cmd = WDIOC_GETSTATUS \/ cmd = WDIOC_GETBOOTSTATUS \/ cmd = WDIOC_GETTIMEOUT ->
        (forall c, user s !! arg = Some c -> writable c = false) ->
        tegra_wdt_ioctl cfg cmd arg s = (- EFAULT, s))
  /\ (forall data len,
        0 < len ->
        user s !! (data + len - 1) = None ->
        let s' := snd (tegra_wdt_write cfg data len s) in
        tegra_wdt_write cfg data len s = (- EFAULT, snd (tegra_wdt_ping cfg s))
        /\ timeout (dev s') = timeout (dev s)
        /\ status (dev s') = status (dev s)
        /\ way_out_ok (dev s') = way_out_ok (dev s)
        /\ (armed (arch cfg) (hw s) = true -> armed (arch cfg) (hw s') = true)
        /\ (arch cfg = TEGRA_2x -> armed (arch cfg) (hw s') = true))
  /\ (forall arg c,
        user s !! arg = Some c -> writable c = false ->
        let t := clamp (to_int (contents c)) MIN_WDT_PERIOD MAX_WDT_PERIOD in
        let '(r, s') := tegra_wdt_ioctl cfg WDIOC_SETTIMEOUT arg s in
        r = - EFAULT
        /\ status (dev s') = status (dev s)
        /\ way_out_ok (dev s') = way_out_ok (dev s)
        /\ users (dev s') = users (dev s)
        /\ user s' = user s
        /\ timeout (dev s') = t
        /\ armed (arch cfg) (hw s') = true).
Proof.
  split; [|split; [|split]].
  - intros cmd arg Hcmd Hn. apply ioctl_get_fault; assumption.
  - intros cmd arg [-> | [-> | ->]] Hf; cbn [tegra_wdt_ioctl].
    + apply put_user_fault; assumption.
    + apply put_user_fault; assumption.
    + rewrite bind_eq. mred. apply put_user_fault; assumption.
  - intros data len Hlen Hn. cbn zeta.
    assert (Hl : nonzero len = true) by (apply negb_true_iff, Z.eqb_neq; lia).
    rewrite write_world by assumption. cbn zeta. rewrite Hn. cbn [snd].
    destruct (ping_session cfg s) as (_ & Ht & Hst & Hw).
    split; [reflexivity|]. split; [exact Ht|]. split; [exact Hst|]. split; [exact Hw|].
    split; intros Ha; apply ping_armed; auto.
  - intros arg c Hc Hw. cbn zeta. rewrite (settimeout_put_fault s arg c Hc Hw).
    destruct (reprogrammed_facts (clamp (to_int (contents c)) MIN_WDT_PERIOD MAX_WDT_PERIOD) s)
      as (-> & -> & ->).
    repeat split.
Qed.

(** *** Interrupts *)

Lemma ping_unit s : tegra_wdt_ping cfg s = (tt, snd (tegra_wdt_ping cfg s)).
Proof. destruct (tegra_wdt_ping cfg s) as [[] s']. reflexivity. Qed.

(** The Tegra 3 handler treats every registered instance on its own:
    slot [i] of the array is stepped by the loop body with the value
    read from that instance's [WDT_STATUS]. *)
Lemma interrupt_3x_lookup status_regs (registry : list (option world)) (i : nat) s :
  (i < MAX_NR_CPU_WDT)%nat ->
  registry !! i = Some (Some s) ->
  snd (tegra_wdt_interrupt_3x cfg status_regs registry) !! i
  = Some (Some (snd (tegra_wdt_interrupt_slot cfg (status_regs i) s))).
Proof.
  intros Hi Hs. unfold tegra_wdt_interrupt_3x. cbn [snd].
  assert (Hl : (i < length registry)%nat) by (eapply lookup_lt_Some; eassumption).
  rewrite lookup_app_l by (rewrite length_imap, length_take; lia).
  rewrite list_lookup_imap, lookup_take_lt by assumption.
  rewrite Hs. reflexivity.
Qed.

(** C8: the handlers on a timer interrupt.  For an instance whose
    status has [WDT_KERNEL_HEARTBEAT], the Tegra 2 handler counts the
    interrupt and pings, and the Tegra 3 per-instance handler pings.
    Otherwise the Tegra 2 handler writes no register, schedules the
    tasklet and disables the interrupt line, the log message being
    left to the tasklet; the Tegra 3 per-instance handler does not
    touch the hardware either. *)
Theorem C8_interrupt_policy s irqn :
  let counted := set_dev (set_irq_counter (to_int (irq_counter (dev s) + 1)) (dev s)) s in
  let s' := snd (tegra_wdt_interrupt_2x cfg irqn s) in
  if has_flag WDT_KERNEL_HEARTBEAT (dev s)
  then
    tegra_wdt_interrupt_2x cfg irqn s = (IRQ_HANDLED, snd (tegra_wdt_ping cfg counted))
    /\ (exists tail, log s' = log s ++ ping_writes cfg (dev s) ++ tail)
    /\ tegra_wdt_interrupt_instance cfg s = (tt, snd (tegra_wdt_ping cfg s))
  else
    hw s' = hw s
    /\ log s' = log s ++ [TaskletSchedule; DisableIrqNosync irqn]
    /\ log (snd (tegra_wdt_do_tasklet s'))
       = log s' ++ [DevInfo "Watchdog interrupt received, system will reset soon if no ping arrives"]
    /\ hw (snd (tegra_wdt_interrupt_instance cfg s)) = hw s
    /\ filter is_writel (log (snd (tegra_wdt_interrupt_instance cfg s)))
       = filter is_writel (log s).
Proof.
  cbn zeta. unfold has_flag, tegra_wdt_interrupt_2x, tegra_wdt_interrupt_instance.
  mbind. mred.
  destruct (nonzero (Z.land (status (dev s)) WDT_KERNEL_HEARTBEAT)).
  - mbind. mred. split; [reflexivity|]. split; [|apply ping_unit].
    destruct (ping_log cfg (set_dev (set_irq_counter (to_int (irq_counter (dev s) + 1)) (dev s)) s))
      as (tail & Hlog & _).
    exists tail. exact Hlog.
  - mbind. mred. unfold tegra_wdt_do_tasklet. mred.
    rewrite <- !app_assoc. cbn [app].
    repeat split.
    rewrite filter_app. cbn. rewrite app_nil_r. reflexivity.
Qed.

End Protocol.

(** ** The timeout of a running watchdog *)

Section Lifetime.

Variable cfg : kconfig.
Hypothesis heartbeat_bounded : MIN_WDT_PERIOD <= heartbeat cfg <= MAX_WDT_PERIOD.

Lemma release_timeout s :
  timeout (dev (snd (tegra_wdt_release cfg s))) = timeout (dev s).
Proof.
  rewrite release_world. cbn zeta.
  destruct (has_flag WDT_ENABLED (dev s) && negb (nowayout cfg)).
  - destruct (nonzero (way_out_ok (dev s))); cbn [snd]; mred; rewrite ?disable_dev; reflexivity.
  - destruct (nowayout cfg); reflexivity.
Qed.

Lemma write_timeout data len s :
  timeout (dev (snd (tegra_wdt_write cfg data len s))) = timeout (dev s).
Proof.
  destruct (nonzero len) eqn:Hl.
  - rewrite write_world by assumption. cbn zeta.
    destruct (ping_session cfg s) as (_ & Ht & _).
    destruct (user s !! _); cbn [snd]; mred; assumption.
  - unfold tegra_wdt_write. rewrite Hl. reflexivity.
Qed.

Lemma ioctl_timeout cmd arg s :
  timeout_in_range (dev s) ->
  timeout_in_range (dev (snd (tegra_wdt_ioctl cfg cmd arg s))).
Proof.
  intros Hr. unfold timeout_in_range in *. destruct cmd.
  - cbn [tegra_wdt_ioctl]. destruct (copy_to_user_frame ident arg s) as (-> & _). assumption.
  - cbn [tegra_wdt_ioctl]. destruct (put_user_frame 0 arg s) as (-> & _). assumption.
  - cbn [tegra_wdt_ioctl]. destruct (put_user_frame 0 arg s) as (-> & _). assumption.
  - cbn [tegra_wdt_ioctl]. mbind. mred.
    destruct (ping_session cfg s) as (_ & -> & _). assumption.
  - destruct (user s !! arg) as [c|] eqn:Hc.
    + rewrite (settimeout_world cfg s arg c Hc). cbn zeta.
      set (t := clamp _ _ _).
      destruct (put_user_frame t arg (reprogrammed cfg t s)) as (-> & _).
      destruct (reprogrammed_facts cfg t s) as (-> & _).
      apply clamp_range.
    + rewrite ioctl_get_fault by auto. assumption.
  - cbn [tegra_wdt_ioctl]. mbind. mred.
    destruct (put_user_frame (timeout (dev s)) arg s) as (-> & _). assumption.
  - destruct (user s !! arg) as [c|] eqn:Hc.
    + rewrite (setoptions_world cfg s arg c Hc). cbn zeta.
      destruct (_ && _); [cbn [snd]; rewrite disable_dev; assumption|].
      destruct (nonzero _); assumption.
    + rewrite ioctl_get_fault by auto. assumption.
  - assumption.
Qed.

Lemma call_timeout c s :
  timeout_in_range (dev s) ->
  timeout_in_range (dev (snd (run_call cfg c s))).
Proof.
  intros Hr. destruct c as [| |m data len|m cmd arg]; cbn [run_call].
  - destruct (users_flag (dev s)) eqn:Hu.
    + rewrite open_busy by assumption. assumption.
    + pose proof (open_free cfg s Hu) as H.
      destruct (tegra_wdt_open cfg s) as [r s']. destruct H as (_ & Hd & _).
      cbn [snd]. rewrite Hd. exact heartbeat_bounded.
  - unfold timeout_in_range. rewrite release_timeout. assumption.
  - unfold timeout_in_range. rewrite write_timeout. assumption.
  - apply ioctl_timeout. assumption.
Qed.

Lemma irq_2x_world irqn s :
  snd (tegra_wdt_interrupt_2x cfg irqn s)
  = let counted := set_dev (set_irq_counter (to_int (irq_counter (dev s) + 1)) (dev s)) s in
    if has_flag WDT_KERNEL_HEARTBEAT (dev s)
    then snd (tegra_wdt_ping cfg counted)
    else set_log (log s ++ [TaskletSchedule; DisableIrqNosync irqn]) counted.
Proof.
  unfold tegra_wdt_interrupt_2x, has_flag. mbind. mred. cbn zeta.
  destruct (nonzero _); mbind; mred; [reflexivity|].
  rewrite <- app_assoc. reflexivity.
Qed.

Lemma irq_slot_world status_reg s :
  snd (tegra_wdt_interrupt_slot cfg status_reg s)
  = if has_flag WDT_ENABLED (dev s) && nonzero (Z.land status_reg WDT_INTR_STAT)
    then if has_flag WDT_KERNEL_HEARTBEAT (dev s)
         then snd (tegra_wdt_ping cfg s)
         else set_log (log s ++ [WarnOnOnce]) s
    else s.
Proof.
  unfold tegra_wdt_interrupt_slot, tegra_wdt_interrupt_instance, has_flag. mbind. mred.
  destruct (_ && _); [|reflexivity].
  mbind. mred. destruct (nonzero _); mbind; mred; reflexivity.
Qed.

(** What an event other than a system call does to the timeout, and
    to a cold instance. *)
Lemma background_step e st st' :
  (forall c, e <> ev_call c) ->
  sys_step cfg e st = Some st' ->
  timeout (dev (kernel st')) = timeout (dev (kernel st))
  /\ file_open st' = file_open st
  /\ (cold cfg (kernel st) -> cold cfg (kernel st')).
Proof.
  intros Hne Hs. destruct st as [s fo].
  destruct e as [c|irqn status_reg| |code| |]; cbn [sys_step kernel file_open] in Hs.
  - exfalso. apply (Hne c). reflexivity.
  - destruct (arch cfg) eqn:Ha; injection Hs as <-; cbn [kernel file_open].
    + rewrite irq_2x_world. cbn zeta.
      destruct (has_flag WDT_KERNEL_HEARTBEAT (dev s)) eqn:Hb.
      * destruct (ping_session cfg
                    (set_dev (set_irq_counter (to_int (irq_counter (dev s) + 1)) (dev s)) s))
          as (_ & -> & _).
        split; [reflexivity|split; [reflexivity|]].
        intros (_ & Hh & _). congruence.
      * split; [reflexivity|split; [reflexivity|]]. intros H. exact H.
    + rewrite irq_slot_world.
      destruct (has_flag WDT_ENABLED (dev s)) eqn:He; cbn [andb]; [|auto].
      destruct (nonzero (Z.land status_reg WDT_INTR_STAT)); [|auto].
      destruct (has_flag WDT_KERNEL_HEARTBEAT (dev s)).
      * destruct (ping_session cfg s) as (_ & -> & _).
        split; [reflexivity|split; [reflexivity|]].
        intros (Hc & _). congruence.
      * split; [reflexivity|split; [reflexivity|]]. intros H. exact H.
  - injection Hs as <-. cbn [kernel file_open]. auto.
  - injection Hs as <-. cbn [kernel file_open]. unfold tegra_wdt_notify. mbind. mred.
    destruct (_ || _); [|auto]. unfold cold. rewrite disable_dev, disable_armed.
    split; [reflexivity|split; [reflexivity|]]. intros (? & ? & _). auto.
  - injection Hs as <-. cbn [kernel file_open]. unfold tegra_wdt_suspend. mbind. mred.
    unfold cold. rewrite disable_dev, disable_armed.
    split; [reflexivity|split; [reflexivity|]]. intros (? & ? & _). auto.
  - injection Hs as <-. cbn [kernel file_open]. unfold tegra_wdt_resume. mbind. mred.
    fold (has_flag WDT_ENABLED (dev s)).
    destruct (has_flag WDT_ENABLED (dev s)) eqn:He; [|auto].
    rewrite enable_dev. split; [reflexivity|split; [reflexivity|]].
    intros (Hc & _). congruence.
Qed.

(** *** The state probe leaves *)

Lemma probe_fail_result a b c d e r s :
  fst (probe_fail a b c d e r s) = Failed r.
Proof. unfold probe_fail. mbind. reflexivity. Qed.

Ltac probe_dead H :=
  apply (f_equal fst) in H; cbn beta in H;
  rewrite ?bind_eq in H; cbn beta in H;
  rewrite ?probe_fail_result in H; cbn [ret fst] in H; discriminate H.

Lemma probe_register_probed pdev k b s w :
  probe_register cfg pdev k b s = (Probed, w) -> probed_from cfg s w.
Proof.
  unfold probe_register, probed_from. cbn zeta. rewrite bind_eq. mred.
  destruct (nonzero (register_reboot_notifier_ret k)); [intros H; probe_dead H|].
  destruct (nonzero (misc_register_ret k)); [intros H; probe_dead H|].
  destruct (enable_heartbeat cfg && _).
  - mbind. mred. intros [= <-]. mred. rewrite enable_dev. left. reflexivity.
  - mbind. mred. intros [= <-]. right. auto.
Qed.

Lemma probe_request_irq_probed pdev k n s w :
  probe_request_irq cfg pdev k n s = (Probed, w) -> probed_from cfg s w.
Proof.
  unfold probe_request_irq. rewrite bind_eq. mred.
  destruct (nonzero (request_irq_ret k)); [intros H; probe_dead H|].
  rewrite bind_eq. mred. intros H. apply probe_register_probed in H. exact H.
Qed.

Lemma int_priority_frame s :
  status (dev (snd (tegra_wdt_int_priority cfg s))) = status (dev s)
  /\ timeout (dev (snd (tegra_wdt_int_priority cfg s))) = timeout (dev s)
  /\ ptv (hw (snd (tegra_wdt_int_priority cfg s))) = ptv (hw s).
Proof.
  unfold tegra_wdt_int_priority. rewrite bind_eq. mred.
  destruct (int_base (dev s)); [|auto]. mred. hwred. auto.
Qed.

Lemma probe_irq_probed pdev k s w :
  probe_irq cfg pdev k s = (Probed, w) -> probed_from cfg s w.
Proof.
  unfold probe_irq. destruct (res_irq pdev) as [n|]; [|apply probe_register_probed].
  destruct (fiq_debugger cfg) eqn:Hf; [|apply probe_request_irq_probed].
  destruct (res_int_base pdev); [|intros [=]].
  destruct (request_int_base_ok k); [|intros H; probe_dead H].
  destruct (ioremap_int_base_ok k); [|intros H; probe_dead H].
  mbind. mred. intros H. apply probe_request_irq_probed in H.
  destruct (int_priority_frame (set_dev (set_int_base true (dev s)) s)) as (_ & _ & Hp).
  unfold probed_from in *. rewrite Hp in H. exact H.
Qed.

Lemma probe_probed pdev k w0 w :
  tegra_wdt_probe cfg pdev k w0 = (Probed, w) ->
  timeout (dev w) = heartbeat cfg
  \/ (status (dev w) = WDT_DISABLED /\ ptv (hw w) = 0).
Proof.
  unfold tegra_wdt_probe.
  destruct (_ && _); [intros H; probe_dead H|].
  destruct (_ || _); [intros H; probe_dead H|].
  destruct (_ && _); [intros H; probe_dead H|].
  destruct (_ && _); [intros H; probe_dead H|].
  destruct (negb (kzalloc_ok k)); [intros H; probe_dead H|].
  cbn zeta. rewrite bind_eq. mred.
  destruct (_ || _); [intros H; probe_dead H|].
  rewrite bind_eq. mred.
  destruct (_ || _); [intros H; probe_dead H|].
  mbind. intros H. apply probe_irq_probed in H.
  destruct H as [H|[H1 H2]]; [left; exact H|right].
  split; [exact H1|]. rewrite H2. clear.
  set (s1 := snd (_ (set_dev _ (set_dev _ w0)))).
  destruct (arch cfg) eqn:Ha; mred; rewrite ?Ha; hwred; apply disable_ptv.
Qed.

Lemma probed_timeout_ok pdev k w0 w :
  tegra_wdt_probe cfg pdev k w0 = (Probed, w) -> timeout_ok cfg (System w false).
Proof.
  intros H. apply probe_probed in H. unfold timeout_ok, timeout_in_range, cold.
  cbn [kernel file_open].
  destruct H as [H|[H1 H2]]; [left; rewrite H; exact heartbeat_bounded|right].
  split; [reflexivity|]. unfold has_flag, armed. rewrite H1, H2.
  destruct (arch cfg); auto.
Qed.

Lemma step_timeout_ok e st st' :
  timeout_ok cfg st -> sys_step cfg e st = Some st' -> timeout_ok cfg st'.
Proof.
  intros Hok Hs.
  assert (Hcall : forall c, e = ev_call c -> timeout_ok cfg st').
  { intros c ->. destruct st as [s fo]. unfold timeout_ok in *. cbn [kernel file_open] in *.
    destruct c as [| |m data len|m cmd arg]; cbn [sys_step kernel file_open] in Hs.
    - destruct (users_flag (dev s)) eqn:Hu.
      + rewrite open_busy in Hs by assumption. injection Hs as <-.
        cbn [kernel file_open]. rewrite orb_false_r. exact Hok.
      + pose proof (open_free cfg s Hu) as H.
        destruct (tegra_wdt_open cfg s) as [r s1]. destruct H as (_ & Hd & _).
        injection Hs as <-. cbn [kernel file_open]. left.
        unfold timeout_in_range. rewrite Hd. exact heartbeat_bounded.
    - destruct fo; [|discriminate]. injection Hs as <-. cbn [kernel file_open].
      destruct Hok as [Hr|[[=] _]]. left.
      unfold timeout_in_range. rewrite release_timeout. exact Hr.
    - destruct fo; [|discriminate]. injection Hs as <-. cbn [kernel file_open].
      destruct Hok as [Hr|[[=] _]]. left.
      apply (call_timeout (sys_write m data len)). exact Hr.
    - destruct fo; [|discriminate]. injection Hs as <-. cbn [kernel file_open].
      destruct Hok as [Hr|[[=] _]]. left.
      apply (call_timeout (sys_ioctl m cmd arg)). exact Hr. }
  destruct e as [c| | | | |]; [apply (Hcall c); reflexivity| | | | |].
  all: match type of Hs with
       | sys_step _ ?e0 _ = _ =>
           destruct (background_step e0 st st' ltac:(intros c0; discriminate) Hs)
             as (Ht & Hf & Hc)
       end.
  all: unfold timeout_ok, timeout_in_range in *; rewrite Ht, Hf.
  all: destruct Hok as [Hr|[Hfo Hcold]]; [left; exact Hr|right; auto].
Qed.

Lemma reachable_timeout_ok st : reachable cfg st -> timeout_ok cfg st.
Proof.
  induction 1 as [pdev k w0 w Hp|s e s' _ IH Hs].
  - eapply probed_timeout_ok; eassumption.
  - eapply step_timeout_ok; eassumption.
Qed.

(** C7: with the [heartbeat] parameter within [5, 1000], in every
    state an instance can reach -- by probe (with or without the
    kernel heartbeat), open, write, the ioctls, close, the interrupt
    handlers, the reboot notifier, suspend and resume -- armed hardware
    comes with a timeout within [5, 1000]. *)
Theorem C7_armed_timeout_in_range w fo :
  reachable cfg (System w fo) ->
  armed (arch cfg) (hw w) = true ->
  timeout_in_range (dev w).
Proof.
  intros Hr Ha. destruct (reachable_timeout_ok _ Hr) as [H|[_ (_ & _ & Hc)]].
  - exact H.
  - cbn [kernel] in Hc. congruence.
Qed.

End Lifetime.

(** ** The properties on concrete runs *)

Lemma probed_tegra2 :
  tegra_wdt_probe tegra2 wdt_device kernel_ok power_on = (Probed, probed tegra2).
Proof. vm_compute. reflexivity. Qed.

Lemma opened_reachable : reachable tegra2 (System (opened tegra2) true).
Proof.
  apply (reach_step tegra2 (System (probed tegra2) false) (ev_call sys_open)).
  - exact (reach_probe tegra2 wdt_device kernel_ok power_on _ probed_tegra2).
  - vm_compute. reflexivity.
Qed.

Lemma card_disabled_reachable : reachable tegra2 (System card_disabled true).
Proof.
  apply (reach_step tegra2 (System (opened tegra2) true)
           (ev_call (sys_ioctl (int_arg WDIOS_DISABLECARD true) WDIOC_SETOPTIONS 200))).
  - exact opened_reachable.
  - vm_compute. reflexivity.
Qed.

(** Probe of device 0 on a Tegra 3 build with the kernel heartbeat: the
    instance comes up enabled, heartbeat-owned, busy and armed, and the
    shared handler pings it when its status register shows the
    interrupt. *)
Example tegra3_heartbeat_probe :
  let pdev := PlatformDevice 0 true true (Some 32) false in
  let '(r, s) := tegra_wdt_probe tegra3_heartbeat pdev kernel_ok power_on in
  r = Probed
  /\ status (dev s) = Z.lor WDT_ENABLED WDT_KERNEL_HEARTBEAT
  /\ timeout (dev s) = 60
  /\ users_flag (dev s) = true
  /\ armed TEGRA_3x (hw s) = true
  /\ fst (tegra_wdt_open tegra3_heartbeat s) = - EBUSY
  /\ tegra_wdt_interrupt_3x tegra3_heartbeat (fun _ => WDT_INTR_STAT) [Some s; None; None; None]
     = (IRQ_HANDLED, [Some (snd (tegra_wdt_ping tegra3_heartbeat s)); None; None; None]).
Proof. vm_compute. repeat split; reflexivity. Qed.

(** C6: the first open after probe.  Probe leaves the status
    [WDT_DISABLED]; open ors [WDT_ENABLED] into it without clearing
    [WDT_DISABLED], so the reachable state after open carries both
    flags (status 3). *)
Theorem C6_open_after_probe_sets_both_flags :
  reachable tegra2 (System (opened tegra2) true)
  /\ status (dev (probed tegra2)) = WDT_DISABLED
  /\ fst (tegra_wdt_open tegra2 (probed tegra2)) = 0
  /\ status (dev (opened tegra2)) = Z.lor WDT_DISABLED WDT_ENABLED
  /\ has_flag WDT_DISABLED (dev (opened tegra2)) = true
  /\ has_flag WDT_ENABLED (dev (opened tegra2)) = true.
Proof.
  split; [exact opened_reachable|]. vm_compute. repeat split; reflexivity.
Qed.

(** No-way-out scenario: "V" is written and the file closed, and the
    instance is still enabled and armed. *)
Lemma C1_nowayout_witness :
  has_flag WDT_ENABLED
    (dev (run_calls tegra2_nowayout [sys_write buf_okV 102 1; sys_close]
            (opened tegra2_nowayout))) = true
  /\ armed TEGRA_2x
       (hw (run_calls tegra2_nowayout [sys_write buf_okV 102 1; sys_close]
              (opened tegra2_nowayout))) = true.
Proof.
  refine (proj1 (C1_nowayout_never_disables tegra2_nowayout (opened tegra2_nowayout) _ _ _) _);
    vm_compute; reflexivity.
Defined.

(** Magic close scenario: "okV" is written and the file closed. *)
Lemma C2_magic_close_witness :
  let s1 := snd (tegra_wdt_write tegra2 100 3 (set_user buf_okV (opened tegra2))) in
  let '(r, s2) := tegra_wdt_release tegra2 s1 in
  r = 0
  /\ if 86 mod 256 =? magic_char
     then status (dev s2) = WDT_DISABLED
          /\ has_flag WDT_ENABLED (dev s2) = false
          /\ armed TEGRA_2x (hw s2) = false
     else status (dev s2) = status (dev (opened tegra2))
          /\ has_flag WDT_ENABLED (dev s2) = true
          /\ hw s2 = hw s1
          /\ armed TEGRA_2x (hw s2) = true.
Proof.
  refine (C2_magic_close tegra2 (set_user buf_okV (opened tegra2)) 100 3 (UCell 86 false)
            _ _ _ _ _);
    try (vm_compute; reflexivity).
Defined.

(** A one-byte write of "x" on the opened instance. *)
Lemma C3_write_witness :
  0 < 1
  /\ let s := set_user buf_x (opened tegra2) in
     let s' := snd (tegra_wdt_write tegra2 100 1 s) in
     (hw s' = hw (snd (tegra_wdt_ping tegra2 s))
      /\ log s' = log (snd (tegra_wdt_ping tegra2 s))
      /\ exists tail, log s' = log s ++ ping_writes tegra2 (dev s) ++ tail)
     /\ forall c, user s !! (100 + 1 - 1) = Some c ->
          (way_out_ok (dev s') <> 0 <-> contents c mod 256 = magic_char).
Proof.
  split; [lia|].
  apply (C3_write_pings_and_records_magic tegra2 (set_user buf_x (opened tegra2)) 100 1).
  lia.
Defined.

(** [WDIOC_SETTIMEOUT] with 10 on the opened instance. *)
Lemma C5_settimeout_witness :
  let s := set_user (int_arg 10 true) (opened tegra2) in
  let t := 10 in
  let applied :=
    if t <? MIN_WDT_PERIOD then MIN_WDT_PERIOD
    else if MAX_WDT_PERIOD <? t then MAX_WDT_PERIOD else t in
  let '(r, s1) := tegra_wdt_ioctl tegra2 WDIOC_SETTIMEOUT 200 s in
  r = 0
  /\ timeout (dev s1) = applied
  /\ contents <$> user s1 !! 200 = Some applied
  /\ (MIN_WDT_PERIOD <= t <= MAX_WDT_PERIOD -> applied = t)
  /\ forall m arg' c',
       m !! arg' = Some c' -> writable c' = true ->
       let '(r2, s2) := tegra_wdt_ioctl tegra2 WDIOC_GETTIMEOUT arg' (set_user m s1) in
       r2 = 0 /\ contents <$> user s2 !! arg' = Some applied
       /\ dev s2 = dev s1 /\ hw s2 = hw s1.
Proof.
  refine (C5_settimeout_clamps_and_reports tegra2 (set_user (int_arg 10 true) (opened tegra2))
            200 (UCell 10 true) _ _ _).
  - vm_compute. reflexivity.
  - reflexivity.
  - cbn [contents]. lia.
Defined.

(** The opened instance is armed with the module default of 60 s. *)
Lemma C7_timeout_witness :
  MIN_WDT_PERIOD <= heartbeat tegra2 <= MAX_WDT_PERIOD
  /\ timeout_in_range (dev (opened tegra2)).
Proof.
  assert (Hb : MIN_WDT_PERIOD <= heartbeat tegra2 <= MAX_WDT_PERIOD).
  { unfold MIN_WDT_PERIOD, MAX_WDT_PERIOD, tegra2, WDT_DEFAULT_TIME. cbn [heartbeat]. lia. }
  split; [exact Hb|].
  refine (C7_armed_timeout_in_range tegra2 Hb (opened tegra2) true opened_reachable _).
  vm_compute. reflexivity.
Defined.

(** C9 fails as stated: a write that faults on its buffer has pinged
    first, and on Tegra 2 the ping arms hardware that
    [WDIOS_DISABLECARD] had disarmed; [WDIOC_SETTIMEOUT] that cannot
    store its result has changed the timeout from 60 to 10. *)
Lemma C9_copy_fault_counterexample :
  reachable tegra2 (System card_disabled true)
  /\ (let '(r, s') := tegra_wdt_write tegra2 100 1 (set_user ∅ card_disabled) in
      r = - EFAULT
      /\ armed TEGRA_2x (hw card_disabled) = false
      /\ armed TEGRA_2x (hw s') = true)
  /\ (let '(r, s') :=
        tegra_wdt_ioctl tegra2 WDIOC_SETTIMEOUT 200
          (set_user (int_arg 10 false) (opened tegra2)) in
      r = - EFAULT
      /\ timeout (dev (opened tegra2)) = 60
      /\ timeout (dev s') = 10).
Proof.
  split; [exact card_disabled_reachable|].
  vm_compute. repeat split; reflexivity.
Qed.

(** A faulting one-byte write after [WDIOS_DISABLECARD] had disarmed
    the hardware: the call fails after the ping, the session fields
    are untouched, and the hardware is armed. *)
Lemma C9_copy_fault_witness :
  let s := set_user ∅ card_disabled in
  let s' := snd (tegra_wdt_write tegra2 100 1 s) in
  tegra_wdt_write tegra2 100 1 s = (- EFAULT, snd (tegra_wdt_ping tegra2 s))
  /\ timeout (dev s') = timeout (dev s)
  /\ status (dev s') = status (dev s)
  /\ way_out_ok (dev s') = way_out_ok (dev s)
  /\ (armed (arch tegra2) (hw s) = true -> armed (arch tegra2) (hw s') = true)
  /\ (arch tegra2 = TEGRA_2x -> armed (arch tegra2) (hw s') = true).
Proof.
  refine (proj1 (proj2 (proj2 (C9_copy_fault_effects tegra2 (set_user ∅ card_disabled))))
            100 1 _ _).
  - lia.
  - vm_compute. reflexivity.
Defined.
(** * Further properties of the driver *)

(** ** Register backend *)

Lemma lor_timer_bits (x : Z) :
  0 <= x < 2 ^ 30 ->
  Z.lor x (Z.lor TIMER_EN TIMER_PERIODIC) = TIMER_EN + TIMER_PERIODIC + x.
Proof.
  intros Hx.
  assert (Hl : Z.land x (Z.lor TIMER_EN TIMER_PERIODIC) = 0).
  { apply Z.bits_inj'. intros n Hn. rewrite Z.land_spec, Z.lor_spec, Z.bits_0.
    unfold TIMER_EN, TIMER_PERIODIC. rewrite !Z.shiftl_1_l, !Z.pow2_bits_eqb by lia.
    destruct (Z.ltb_spec n 30) as [Hlt|Hge].
    - destruct (Z.eqb_spec 31 n); [lia|]. destruct (Z.eqb_spec 30 n); [lia|].
      apply andb_false_r.
    - destruct (Z.eq_dec x 0) as [->|Hx0]; [rewrite Z.bits_0; reflexivity|].
      rewrite Z.bits_above_log2; [reflexivity|lia|].
      apply Z.lt_le_trans with 30; [|exact Hge].
      apply Z.log2_lt_pow2; lia. }
  rewrite <- Z.lxor_lor by assumption.
  rewrite <- Z.add_nocarry_lxor by assumption.
  change (Z.lor TIMER_EN TIMER_PERIODIC) with (TIMER_EN + TIMER_PERIODIC). lia.
Qed.

Section BackendMore.

Variable cfg : kconfig.

(** X1: for a timeout within [5, 1000] nothing wraps or is cut off in
    [tegra_wdt_enable]: the period register receives the enable and
    periodic bits plus exactly half the timeout in microseconds on
    Tegra 2, a quarter on Tegra 3. *)
Theorem enable_programs_exact_period s :
  MIN_WDT_PERIOD <= timeout (dev s) <= MAX_WDT_PERIOD ->
  ptv (hw (snd (tegra_wdt_enable cfg s)))
  = TIMER_EN + TIMER_PERIODIC
    + timeout (dev s) * match arch cfg with TEGRA_2x => 500000 | TEGRA_3x => 250000 end.
Proof.
  unfold MIN_WDT_PERIOD, MAX_WDT_PERIOD. intros Ht.
  assert (H32 : to_u32 (timeout (dev s) * 1000000) = timeout (dev s) * 1000000).
  { unfold to_u32. apply Z.mod_small. lia. }
  munfold. destruct (arch cfg); mred; hwred; rewrite H32.
  - replace (timeout (dev s) * 1000000 / 2) with (timeout (dev s) * 500000)
      by (apply Z.div_unique_exact; lia).
    assert (Hs : to_u32 (timeout (dev s) * 500000) = timeout (dev s) * 500000)
      by (unfold to_u32; apply Z.mod_small; lia).
    rewrite Hs, lor_timer_bits by lia.
    unfold to_u32. apply Z.mod_small. unfold TIMER_EN, TIMER_PERIODIC. rewrite !Z.shiftl_1_l. lia.
  - replace (timeout (dev s) * 1000000 / 4) with (timeout (dev s) * 250000)
      by (apply Z.div_unique_exact; lia).
    assert (Hs : to_u32 (timeout (dev s) * 250000) = timeout (dev s) * 250000)
      by (unfold to_u32; apply Z.mod_small; lia).
    rewrite Hs, lor_timer_bits by lia.
    unfold to_u32. apply Z.mod_small. unfold TIMER_EN, TIMER_PERIODIC. rewrite !Z.shiftl_1_l. lia.
Qed.

(** X2: enabling twice programs the registers as enabling once does,
    and so does disabling twice. *)
Theorem enable_disable_idempotent s :
  hw (snd (tegra_wdt_enable cfg (snd (tegra_wdt_enable cfg s))))
  = hw (snd (tegra_wdt_enable cfg s))
  /\ hw (snd (tegra_wdt_disable cfg (snd (tegra_wdt_disable cfg s))))
     = hw (snd (tegra_wdt_disable cfg s)).
Proof.
  split.
  - munfold. destruct (arch cfg) eqn:Ha; mred; rewrite ?Ha; hwred; reflexivity.
  - munfold. destruct (arch cfg) eqn:Ha; mred; rewrite ?Ha; hwred; [reflexivity|].
    rewrite hw_write_disable_3x by reflexivity. hwred.
    rewrite hw_write_disable_3x by reflexivity. hwred. reflexivity.
Qed.

(** X3: the reboot notifier always answers [NOTIFY_DONE] and never
    touches the instance; it disarms the hardware for [SYS_DOWN] and
    [SYS_HALT] and does nothing at all for any other code. *)
Theorem notify_disarms_on_down_and_halt_only code s :
  let '(r, s') := tegra_wdt_notify cfg code s in
  r = NOTIFY_DONE
  /\ dev s' = dev s
  /\ if (code =? SYS_DOWN) || (code =? SYS_HALT)
     then armed (arch cfg) (hw s') = false
     else s' = s.
Proof.
  unfold tegra_wdt_notify. rewrite bind_eq. cbn beta.
  destruct ((code =? SYS_DOWN) || (code =? SYS_HALT)); mred.
  - rewrite disable_dev, disable_armed. auto.
  - auto.
Qed.

(** X4: suspend disarms without touching the instance, and resume
    brings an instance whose status has [WDT_ENABLED] back to the
    registers [tegra_wdt_enable] programs for its timeout; an instance
    without [WDT_ENABLED] stays disarmed. *)
Theorem suspend_resume_restores_enabled s :
  let s1 := snd (tegra_wdt_suspend cfg s) in
  let s2 := snd (tegra_wdt_resume cfg s1) in
  fst (tegra_wdt_suspend cfg s) = 0
  /\ fst (tegra_wdt_resume cfg s1) = 0
  /\ dev s2 = dev s
  /\ armed (arch cfg) (hw s1) = false
  /\ if has_flag WDT_ENABLED (dev s)
     then armed (arch cfg) (hw s2) = true
          /\ ptv (hw s2) = ptv (hw (snd (tegra_wdt_enable cfg s)))
          /\ src (hw s2) = src (hw (snd (tegra_wdt_enable cfg s)))
     else hw s2 = hw s1.
Proof.
  cbn zeta. unfold tegra_wdt_suspend, tegra_wdt_resume, has_flag. mbind. mred.
  rewrite disable_dev, disable_armed.
  destruct (nonzero (Z.land (status (dev s)) WDT_ENABLED)); mred.
  - rewrite enable_dev, disable_dev, enable_armed.
    repeat split.
    + munfold. destruct (arch cfg) eqn:Ha; mred; rewrite ?Ha; hwred; reflexivity.
    + munfold. destruct (arch cfg) eqn:Ha; mred; rewrite ?Ha; hwred; reflexivity.
  - rewrite disable_dev. auto.
Qed.

End BackendMore.

(** ** ioctl and write *)

Lemma copy_to_user_range objs a s :
  (forall o, In o objs -> 0 <= fst o) ->
  0 <= fst (copy_to_user objs a s) <= fold_right (fun o acc => fst o + acc) 0 objs.
Proof.
  revert a s. induction objs as [|[sz v] rest IH]; intros a s Hpos.
  - cbn. lia.
  - assert (Hsz : 0 <= sz) by (apply (Hpos (sz, v)); left; reflexivity).
    assert (Hrest : forall o, In o rest -> 0 <= fst o) by (intros o Ho; apply Hpos; right; exact Ho).
    assert (Htot : 0 <= fold_right (fun o acc => fst o + acc) 0 rest).
    { clear -Hrest. induction rest as [|o rest IH]; cbn [fold_right]; [lia|].
      assert (0 <= fst o) by (apply Hrest; left; reflexivity).
      assert (0 <= fold_right (fun o acc => fst o + acc) 0 rest)
        by (apply IH; intros o' Ho'; apply Hrest; right; exact Ho').
      lia. }
    cbn [copy_to_user]. rewrite bind_eq.
    destruct (fst (put_user v a s) =? 0).
    + specialize (IH (a + sz) (snd (put_user v a s)) Hrest).
      cbn [fold_right fst]. lia.
    + cbn [ret fst fold_right]. lia.
Qed.

Lemma copy_to_user_keeps_below objs a b s :
  (forall o, In o objs -> 0 <= fst o) ->
  b < a ->
  user (snd (copy_to_user objs a s)) !! b = user s !! b.
Proof.
  revert a s. induction objs as [|[sz v] rest IH]; intros a s Hpos Hb; [reflexivity|].
  assert (Hsz : 0 <= sz) by (apply (Hpos (sz, v)); left; reflexivity).
  assert (Hput : user (snd (put_user v a s)) !! b = user s !! b).
  { unfold put_user. destruct (user s !! a) as [[? []]|]; cbn [snd user set_user]; auto.
    apply lookup_insert_ne. lia. }
  cbn [copy_to_user]. rewrite bind_eq.
  destruct (fst (put_user v a s) =? 0); cbn [ret snd]; [|exact Hput].
  rewrite IH; [exact Hput| |lia].
  intros o Ho. apply Hpos. right. exact Ho.
Qed.

Lemma ident_sizes : forall o, In o ident -> 0 <= fst o.
Proof.
  intros o Ho. vm_compute in Ho.
  repeat (destruct Ho as [<-|Ho]; [cbn; lia|]). destruct Ho.
Qed.

Section ProtocolMore.

Variable cfg : kconfig.

(** X5: [WDIOC_SETOPTIONS] with a readable argument.  When
    [WDIOS_DISABLECARD] is requested and no-way-out is off it wins over
    [WDIOS_ENABLECARD]: the hardware is disarmed and the status has
    [WDT_DISABLED] without [WDT_ENABLED].  Otherwise
    [WDIOS_ENABLECARD] arms the hardware and leaves [WDT_ENABLED]
    without [WDT_DISABLED].  With neither the call fails with
    [-EINVAL] and changes nothing.  The heartbeat flag and the timeout
    are never touched. *)
Theorem setoptions_switches_exclusively s arg c :
  user s !! arg = Some c ->
  let option := to_int (contents c) in
  let '(r, s') := tegra_wdt_ioctl cfg WDIOC_SETOPTIONS arg s in
  has_flag WDT_KERNEL_HEARTBEAT (dev s') = has_flag WDT_KERNEL_HEARTBEAT (dev s)
  /\ timeout (dev s') = timeout (dev s)
  /\ if nonzero (Z.land option WDIOS_DISABLECARD) && negb (nowayout cfg)
     then r = 0
          /\ has_flag WDT_ENABLED (dev s') = false
          /\ has_flag WDT_DISABLED (dev s') = true
          /\ armed (arch cfg) (hw s') = false
     else if nonzero (Z.land option WDIOS_ENABLECARD)
     then r = 0
          /\ has_flag WDT_ENABLED (dev s') = true
          /\ has_flag WDT_DISABLED (dev s') = false
          /\ armed (arch cfg) (hw s') = true
     else r = - EINVAL /\ s' = s.
Proof.
  intros Hc. cbn zeta. rewrite (setoptions_world cfg s arg c Hc). cbn zeta.
  destruct (nonzero (Z.land (to_int (contents c)) WDIOS_DISABLECARD) && negb (nowayout cfg)).
  - rewrite has_flag_heartbeat, has_flag_enabled, has_flag_disabled, disable_armed, disable_dev.
    rewrite has_flag_heartbeat. mred.
    rewrite !Z.lor_spec, !Z.land_spec. cbn. rewrite ?andb_true_r, ?orb_false_r, ?andb_false_r.
    repeat split; auto using orb_true_r.
  - destruct (nonzero (Z.land (to_int (contents c)) WDIOS_ENABLECARD)); [|auto].
    rewrite has_flag_heartbeat, has_flag_enabled, has_flag_disabled.
    rewrite has_flag_heartbeat. mred. rewrite enable_armed.
    rewrite !Z.land_spec, !Z.lor_spec. cbn. rewrite ?andb_true_r, ?orb_false_r, ?andb_false_r.
    repeat split; auto using orb_true_r.
Qed.

(** X6: the query commands [WDIOC_GETSUPPORT], [WDIOC_GETSTATUS],
    [WDIOC_GETBOOTSTATUS] and [WDIOC_GETTIMEOUT] never change the
    instance, the registers or the log, whatever the argument points
    to, and an unknown command returns [-ENOTTY] with nothing changed
    at all. *)
Theorem query_ioctls_change_nothing s arg :
  (forall cmd,
      In cmd [WDIOC_GETSUPPORT; WDIOC_GETSTATUS; WDIOC_GETBOOTSTATUS; WDIOC_GETTIMEOUT] ->
      let s' := snd (tegra_wdt_ioctl cfg cmd arg s) in
      dev s' = dev s /\ hw s' = hw s /\ log s' = log s)
  /\ forall n, tegra_wdt_ioctl cfg (WDIOC_other n) arg s = (- ENOTTY, s).
Proof.
  split; [|reflexivity].
  intros cmd Hin. cbn zeta. cbn [In] in Hin.
  destruct Hin as [<-|[<-|[<-|[<-|[]]]]]; cbn [tegra_wdt_ioctl].
  - apply copy_to_user_frame.
  - apply put_user_frame.
  - apply put_user_frame.
  - rewrite bind_eq. mred. apply put_user_frame.
Qed.

(** X7: [WDIOC_GETSUPPORT] returns what [copy_to_user] returns, the
    number of bytes left uncopied: never a negative errno, at most the
    40 bytes of [struct watchdog_info], all 40 when the argument cannot
    be written, and when it returns 0 the options word at the argument
    address holds [WDIOF_SETTIMEOUT]. *)
Theorem getsupport_returns_uncopied_bytes s arg :
  let '(r, s') := tegra_wdt_ioctl cfg WDIOC_GETSUPPORT arg s in
  0 <= r <= 40
  /\ ((forall c, user s !! arg = Some c -> writable c = false) -> r = 40 /\ s' = s)
  /\ (r = 0 -> contents <$> user s' !! arg = Some WDIOF_SETTIMEOUT).
Proof.
  cbn [tegra_wdt_ioctl].
  pose proof (copy_to_user_range ident arg s ident_sizes) as Hr.
  change (fold_right (fun o acc => fst o + acc) 0 ident) with 40 in Hr.
  destruct (copy_to_user ident arg s) as [r s'] eqn:E. cbn [fst] in Hr.
  split; [exact Hr|]. split.
  - intros Hf. change ident with ((4, WDIOF_SETTIMEOUT) :: tl ident) in E.
    cbn [copy_to_user] in E. rewrite bind_eq in E.
    rewrite (put_user_fault _ _ _ Hf) in E. cbn [fst snd] in E.
    change (- EFAULT =? 0) with false in E. cbv beta iota in E.
    unfold ret in E. injection E as <- <-. split; reflexivity.
  - intros ->. change ident with ((4, WDIOF_SETTIMEOUT) :: tl ident) in E.
    cbn [copy_to_user] in E. rewrite bind_eq in E.
    unfold put_user in E at 1. 
    destruct (user s !! arg) as [[v []]|] eqn:Hc; cbn [fst snd writable] in E.
    + change (0 =? 0) with true in E. cbv beta iota in E.
      apply (f_equal snd) in E. cbn [snd] in E. rewrite <- E.
      unfold put_user. rewrite Hc. cbn [writable snd].
      rewrite copy_to_user_keeps_below.
      * cbn [user set_user]. rewrite lookup_insert_eq. reflexivity.
      * intros o Ho. apply ident_sizes. right. exact Ho.
      * lia.
    + change (- EFAULT =? 0) with false in E. cbv beta iota in E. discriminate E.
    + change (- EFAULT =? 0) with false in E. cbv beta iota in E. discriminate E.
Qed.

(** X8: on Tegra 2 a keep-alive is a full re-arm: [WDIOC_KEEPALIVE]
    returns 0 and leaves the hardware armed whatever the state before,
    also when [WDIOS_DISABLECARD] had disarmed it, while status,
    timeout, [way_out_ok] and the users flag stay as they were. *)
Theorem keepalive_arms_on_tegra2 s arg :
  arch cfg = TEGRA_2x ->
  let '(r, s') := tegra_wdt_ioctl cfg WDIOC_KEEPALIVE arg s in
  r = 0
  /\ armed (arch cfg) (hw s') = true
  /\ status (dev s') = status (dev s)
  /\ timeout (dev s') = timeout (dev s)
  /\ way_out_ok (dev s') = way_out_ok (dev s)
  /\ users (dev s') = users (dev s).
Proof.
  intros Ha. cbn [tegra_wdt_ioctl]. rewrite bind_eq. mred.
  destruct (ping_session cfg s) as (Hu & Ht & Hst & Hw).
  rewrite ping_armed by auto.
  repeat split; assumption.
Qed.

(** X9: a write looks at no byte of the buffer but the last one: with
    two user memories that agree at [data + len - 1] the call returns
    the same value and leaves the same instance, registers and log. *)
Theorem write_reads_last_byte_only s m1 m2 data len :
  m1 !! (data + len - 1) = m2 !! (data + len - 1) ->
  let r1 := tegra_wdt_write cfg data len (set_user m1 s) in
  let r2 := tegra_wdt_write cfg data len (set_user m2 s) in
  fst r1 = fst r2
  /\ dev (snd r1) = dev (snd r2)
  /\ hw (snd r1) = hw (snd r2)
  /\ log (snd r1) = log (snd r2).
Proof.
  intros Hm. cbn zeta. destruct (nonzero len) eqn:Hl.
  - rewrite !write_world by assumption. cbn zeta. mred. rewrite Hm.
    assert (Hp : forall m,
               dev (snd (tegra_wdt_ping cfg (set_user m s))) = dev (snd (tegra_wdt_ping cfg s))
               /\ hw (snd (tegra_wdt_ping cfg (set_user m s))) = hw (snd (tegra_wdt_ping cfg s))
               /\ log (snd (tegra_wdt_ping cfg (set_user m s))) = log (snd (tegra_wdt_ping cfg s))).
    { intros m. unfold tegra_wdt_ping, tegra_wdt_enable.
      destruct (arch cfg); mbind; mred; [|auto].
      destruct (nonzero (irq_counter (dev s))); mbind; mred; auto. }
    destruct (Hp m1) as (Hd1 & Hh1 & Hl1). destruct (Hp m2) as (Hd2 & Hh2 & Hl2).
    destruct (m2 !! (data + len - 1)); cbn [fst snd]; mred;
      rewrite Hd1, Hd2, Hh1, Hh2, Hl1, Hl2; auto.
  - unfold tegra_wdt_write. rewrite Hl. auto.
Qed.

Lemma reprogrammed_hw t s :
  hw (reprogrammed cfg t s)
  = match arch cfg with
    | TEGRA_2x =>
        TimerHw (to_u32 (Z.lor (to_u32 (to_u32 (t * 1000000) / 2))
                               (Z.lor TIMER_EN TIMER_PERIODIC)))
          (to_u32 (Z.lor (Z.lor WDT_EN WDT_SEL_TMR1) WDT_SYS_RST))
          (unlock (hw s)) (counter_on (hw s)) (iep_class (hw s))
    | TEGRA_3x =>
        TimerHw (to_u32 (Z.lor (to_u32 (to_u32 (t * 1000000) / 4))
                               (Z.lor TIMER_EN TIMER_PERIODIC)))
          (let val := to_u32 (Z.lor (Z.lor (tmrsrc (dev s)) WDT_CFG_PERIOD)
                                    WDT_CFG_PMC2CAR_RST_EN) in
           if fiq_debugger cfg then to_u32 (Z.lor val WDT_CFG_FIQ_INT_EN) else val)
          0 true (iep_class (hw s))
    end.
Proof.
  unfold reprogrammed. munfold.
  destruct (arch cfg) eqn:Ha; mred; rewrite ?Ha; hwred; [reflexivity|].
  rewrite hw_write_disable_3x by reflexivity. hwred. reflexivity.
Qed.

(** X10: [WDIOC_SETTIMEOUT] is idempotent: issuing it again with the
    value it has just reported leaves instance, registers and the
    user's word unchanged. *)
Theorem settimeout_twice_is_settimeout_once s arg c :
  user s !! arg = Some c -> writable c = true ->
  let s1 := snd (tegra_wdt_ioctl cfg WDIOC_SETTIMEOUT arg s) in
  let '(r2, s2) := tegra_wdt_ioctl cfg WDIOC_SETTIMEOUT arg s1 in
  r2 = 0 /\ dev s2 = dev s1 /\ hw s2 = hw s1 /\ user s2 = user s1.
Proof.
  intros Hc Hw. cbn zeta.
  rewrite (settimeout_world cfg s arg c Hc). cbn zeta.
  set (t := clamp (to_int (contents c)) MIN_WDT_PERIOD MAX_WDT_PERIOD).
  pose proof (clamp_range (to_int (contents c))) as Hr. fold t in Hr.
  unfold MIN_WDT_PERIOD, MAX_WDT_PERIOD in Hr.
  destruct (reprogrammed_facts cfg t s) as (Hd & Hu & _).
  pose proof (reprogrammed_hw t s) as Hh.
  rewrite (put_user_ok t arg (reprogrammed cfg t s) c) by (rewrite ?Hu; assumption).
  cbn [snd].
  remember (set_user (<[arg:=UCell t true]> (user (reprogrammed cfg t s)))
              (reprogrammed cfg t s)) as s1 eqn:Es1.
  assert (Hd1 : dev s1 = set_timeout t (dev s)) by (rewrite Es1; exact Hd).
  assert (Hh1 : hw s1 = hw (reprogrammed cfg t s)) by (rewrite Es1; reflexivity).
  assert (Hu1 : user s1 = <[arg:=UCell t true]> (user s)) by (rewrite Es1, Hu; reflexivity).
  clear Es1.
  assert (Hc1 : user s1 !! arg = Some (UCell t true))
    by (rewrite Hu1; apply lookup_insert_eq).
  rewrite (settimeout_world cfg s1 arg _ Hc1). cbn zeta. cbn [contents].
  rewrite to_int_id by lia.
  replace (clamp t MIN_WDT_PERIOD MAX_WDT_PERIOD) with t
    by (unfold clamp, MIN_WDT_PERIOD, MAX_WDT_PERIOD; lia).
  destruct (reprogrammed_facts cfg t s1) as (Hd2 & Hu2 & _).
  pose proof (reprogrammed_hw t s1) as Hh2.
  rewrite (put_user_ok t arg (reprogrammed cfg t s1) (UCell t true))
    by (rewrite ?Hu2; auto).
  cbn [dev hw user set_user].
  split; [reflexivity|]. split; [|split].
  - rewrite Hd2, Hd1. destruct (dev s); reflexivity.
  - rewrite Hh2, Hh1, Hh, Hd1. destruct (arch cfg); reflexivity.
  - rewrite Hu2, Hu1. apply insert_insert_eq.
Qed.

(** X11: [WDIOC_SETTIMEOUT] re-enables the hardware without looking at
    the status.  On an instance whose status lacks [WDT_ENABLED] the
    hardware is armed afterwards, and since release only disables an
    instance whose status has [WDT_ENABLED], a following write (magic
    character or not) and close leave it armed with the device free
    for the next open. *)
Theorem settimeout_arms_past_magic_close s arg c m data len :
  has_flag WDT_ENABLED (dev s) = false ->
  user s !! arg = Some c ->
  let s1 := snd (tegra_wdt_ioctl cfg WDIOC_SETTIMEOUT arg s) in
  let s2 := snd (tegra_wdt_write cfg data len (set_user m s1)) in
  let s3 := snd (tegra_wdt_release cfg s2) in
  armed (arch cfg) (hw s1) = true
  /\ armed (arch cfg) (hw s3) = true
  /\ has_flag WDT_ENABLED (dev s3) = false
  /\ users_flag (dev s3) = false.
Proof.
  intros He Hc. cbn zeta.
  rewrite (settimeout_world cfg s arg c Hc). cbn zeta.
  set (t := clamp _ _ _).
  destruct (put_user_frame t arg (reprogrammed cfg t s)) as (Hd & Hh & _).
  destruct (reprogrammed_facts cfg t s) as (Hd' & _ & Ha).
  set (s1 := snd (put_user t arg (reprogrammed cfg t s))) in *.
  assert (Ha1 : armed (arch cfg) (hw s1) = true) by (rewrite Hh; exact Ha).
  assert (He1 : has_flag WDT_ENABLED (dev s1) = false)
    by (unfold has_flag in *; rewrite Hd, Hd'; exact He).
  split; [exact Ha1|].
  set (s2 := snd (tegra_wdt_write cfg data len (set_user m s1))).
  assert (H2 : armed (arch cfg) (hw s2) = true /\ has_flag WDT_ENABLED (dev s2) = false).
  { subst s2. destruct (nonzero len) eqn:Hl.
    - rewrite write_world by assumption. cbn zeta.
      destruct (ping_session cfg (set_user m s1)) as (_ & _ & Hst & _).
      pose proof (ping_armed cfg (set_user m s1) (or_introl Ha1)) as Hpa.
      unfold has_flag in *.
      destruct (user (set_user m s1) !! _); cbn [snd]; mred; rewrite Hst; auto.
    - unfold tegra_wdt_write. rewrite Hl. auto. }
  destruct H2 as [Ha2 He2].
  rewrite release_world. cbn zeta. rewrite He2. cbn [andb].
  unfold users_flag, has_flag in *.
  destruct (nowayout cfg); cbn [snd]; mred; rewrite Ha2, He2;
    repeat split; apply Z.clearbit_eq.
Qed.

End ProtocolMore.

(** ** Interrupt handlers *)

Section InterruptMore.

Variable cfg : kconfig.

Lemma ping_2x_world s :
  arch cfg = TEGRA_2x ->
  let se := snd (tegra_wdt_enable cfg s) in
  snd (tegra_wdt_ping cfg s)
  = if nonzero (irq_counter (dev s))
    then World (set_irq_counter 0 (dev s)) (hw se)
           (log s ++ ping_writes cfg (dev s)
              ++ [Writel TIMER_PCR_INTR WDT_TIMER TIMER_PCR; EnableIrq (irq (dev s))])
           (user s)
    else World (dev s) (hw se) (log s ++ ping_writes cfg (dev s)) (user s).
Proof.
  intros Ha. cbn zeta. unfold tegra_wdt_ping, tegra_wdt_enable, ping_writes. rewrite Ha.
  mbind. mred. rewrite Ha.
  destruct (nonzero (irq_counter (dev s))); mbind; mred; hwred.
  - rewrite <- !app_assoc. reflexivity.
  - rewrite <- !app_assoc. reflexivity.
Qed.

(** X12: Tegra 2, instance not heartbeat-owned.  The handler counts the
    interrupt and disables the line without touching a register; the
    next ping acknowledges the interrupt, resets the count and
    re-enables the instance's line, once: a further ping only
    reprograms the timer. *)
Theorem interrupt_line_reenabled_by_next_ping s irqn :
  arch cfg = TEGRA_2x ->
  has_flag WDT_KERNEL_HEARTBEAT (dev s) = false ->
  0 <= irq_counter (dev s) < 2 ^ 31 - 1 ->
  let s1 := snd (tegra_wdt_interrupt_2x cfg irqn s) in
  let s2 := snd (tegra_wdt_ping cfg s1) in
  let s3 := snd (tegra_wdt_ping cfg s2) in
  irq_counter (dev s1) = irq_counter (dev s) + 1
  /\ hw s1 = hw s
  /\ irq_counter (dev s2) = 0
  /\ log s2 = log s ++ [TaskletSchedule; DisableIrqNosync irqn]
              ++ ping_writes cfg (dev s)
              ++ [Writel TIMER_PCR_INTR WDT_TIMER TIMER_PCR; EnableIrq (irq (dev s))]
  /\ log s3 = log s2 ++ ping_writes cfg (dev s).
Proof.
  intros Ha Hb Hc. cbn zeta. rewrite irq_2x_world. cbn zeta. rewrite Hb.
  rewrite to_int_id by lia.
  set (s1 := set_log _ _).
  assert (Hn : nonzero (irq_counter (dev s1)) = true).
  { subst s1. mred. apply negb_true_iff, Z.eqb_neq. lia. }
  rewrite (ping_2x_world s1 Ha). cbn zeta. rewrite Hn.
  set (s2 := World _ _ _ _).
  rewrite (ping_2x_world s2 Ha). cbn zeta.
  subst s2 s1. mred. cbn [nonzero Z.eqb negb]. mred.
  rewrite <- !app_assoc. repeat split.
Qed.

Lemma interrupt_3x_nth status_regs (registry : list (option world)) (i : nat) :
  snd (tegra_wdt_interrupt_3x cfg status_regs registry) !! i
  = if (i <? MAX_NR_CPU_WDT)%nat
    then (fun slot =>
            match slot with
            | Some s => Some (snd (tegra_wdt_interrupt_slot cfg (status_regs i) s))
            | None => None
            end) <$> registry !! i
    else registry !! i.
Proof.
  unfold tegra_wdt_interrupt_3x, MAX_NR_CPU_WDT. cbn [snd].
  destruct (Nat.ltb_spec i 4) as [Hlt|Hge].
  - destruct (registry !! i) as [slot|] eqn:Hs.
    + assert (Hl : (i < length registry)%nat) by (eapply lookup_lt_Some; eassumption).
      rewrite lookup_app_l by (rewrite length_imap, length_take; lia).
      rewrite list_lookup_imap, lookup_take_lt by assumption.
      rewrite Hs. reflexivity.
    + assert (Hl : (length registry <= i)%nat) by (apply lookup_ge_None; assumption).
      cbn [fmap option_fmap option_map].
      apply lookup_ge_None. rewrite length_app, length_imap, length_take, length_drop.
      destruct (Nat.min_spec 4 (length registry)) as [[? ->]|[? ->]]; lia.
  - destruct (Nat.le_gt_cases (length registry) 4) as [Hle|Hgt].
    + rewrite (proj2 (lookup_ge_None registry i)) by lia.
      apply lookup_ge_None. rewrite length_app, length_imap, length_take, length_drop.
      destruct (Nat.min_spec 4 (length registry)) as [[? ->]|[? ->]]; lia.
    + assert (Hm : length (take 4 registry) = 4%nat) by (apply length_take_le; lia).
      rewrite lookup_app_r by (rewrite length_imap, Hm; lia).
      rewrite length_imap, Hm, lookup_drop. f_equal. lia.
Qed.

(** X13: the shared Tegra 3 handler returns [IRQ_HANDLED], keeps the
    array's length and its empty slots, and for a registered instance
    changes neither the instance structure nor armed hardware into
    disarmed.  An instance beyond the first four slots, without
    [WDT_ENABLED], or whose status register shows no pending
    interrupt is left exactly as it was, and without
    [WDT_KERNEL_HEARTBEAT] no register is written. *)
Theorem shared_interrupt_only_pings status_regs (registry : list (option world)) :
  arch cfg = TEGRA_3x ->
  let '(r, registry') := tegra_wdt_interrupt_3x cfg status_regs registry in
  r = IRQ_HANDLED
  /\ length registry' = length registry
  /\ forall i : nat,
       match registry !! i with
       | None => registry' !! i = None
       | Some None => registry' !! i = Some None
       | Some (Some s) =>
           exists s',
             registry' !! i = Some (Some s')
             /\ dev s' = dev s
             /\ (armed (arch cfg) (hw s) = true -> armed (arch cfg) (hw s') = true)
             /\ (has_flag WDT_KERNEL_HEARTBEAT (dev s) = false -> hw s' = hw s)
             /\ ((MAX_NR_CPU_WDT <= i)%nat
                 \/ has_flag WDT_ENABLED (dev s) = false
                 \/ nonzero (Z.land (status_regs i) WDT_INTR_STAT) = false ->
                 s' = s)
       end.
Proof.
  intros Ha.
  pose proof (interrupt_3x_nth status_regs registry) as Hn.
  unfold MAX_NR_CPU_WDT in *.
  destruct (tegra_wdt_interrupt_3x cfg status_regs registry) as [r registry'] eqn:E.
  cbn [snd] in Hn.
  split; [unfold tegra_wdt_interrupt_3x in E; congruence|]. split.
  - unfold tegra_wdt_interrupt_3x, MAX_NR_CPU_WDT in E. injection E as _ <-.
    rewrite length_app, length_imap, length_take, length_drop.
    destruct (Nat.min_spec 4 (length registry)) as [[? ->]|[? ->]]; lia.
  - intros i. rewrite Hn.
    destruct (registry !! i) as [[s|]|] eqn:Hs;
      destruct (Nat.ltb_spec i 4) as [Hlt|Hge];
      cbn [fmap option_fmap option_map]; try reflexivity.
    + eexists. split; [reflexivity|]. rewrite irq_slot_world.
      destruct (has_flag WDT_ENABLED (dev s)) eqn:He; cbn [andb];
        [|repeat split; auto].
      destruct (nonzero (Z.land (status_regs i) WDT_INTR_STAT)) eqn:Hp;
        [|repeat split; auto].
      destruct (has_flag WDT_KERNEL_HEARTBEAT (dev s)) eqn:Hb.
      * rewrite ping_dev, Ha. split; [reflexivity|]. split.
        -- intros Harm. rewrite <- Ha. apply ping_armed. left. rewrite Ha. exact Harm.
        -- split; [discriminate|]. intros [H|[H|H]]; [lia|discriminate|discriminate].
      * mred. split; [reflexivity|]. split; [auto|]. split; [reflexivity|].
        intros [H|[H|H]]; [lia|discriminate|discriminate].
    + exists s. repeat split; auto.
Qed.

(** X14: [tegra_wdt_int_priority] is a read-modify-write that clears
    bit [INT_WDT_CPU & 31] of the interrupt class register and keeps
    every other of its 32 bits; without a mapped interrupt-controller
    window it does nothing. *)
Theorem int_priority_clears_one_bit s :
  let s' := snd (tegra_wdt_int_priority cfg s) in
  if int_base (dev s)
  then
    dev s' = dev s
    /\ log s' = log s ++ [Writel (iep_class (hw s')) INT_BASE ICTLR_IEP_CLASS]
    /\ forall n, 0 <= n < 32 ->
         Z.testbit (iep_class (hw s')) n
         = Z.testbit (iep_class (hw s)) n && negb (n =? Z.land (int_wdt_cpu cfg) 31)
  else s' = s.
Proof.
  cbn zeta. unfold tegra_wdt_int_priority. rewrite bind_eq. mred.
  destruct (int_base (dev s)); [|reflexivity].
  mred. hwred. split; [reflexivity|]. split; [reflexivity|].
  intros n Hn. rewrite Z.land_spec. f_equal.
  unfold to_u32. rewrite Z.mod_pow2_bits_low by lia.
  assert (Hb : 0 <= Z.land (int_wdt_cpu cfg) 31) by (apply Z.land_nonneg; right; lia).
  rewrite Z.lnot_spec, Z.shiftl_1_l, Z.pow2_bits_eqb by lia.
  rewrite Z.eqb_sym. reflexivity.
Qed.

End InterruptMore.

(** ** Probe and remove *)

Section ProbeMore.

Variable cfg : kconfig.

Lemma probe_fail_world a b c d e r s :
  dev (snd (probe_fail a b c d e r s)) = dev s
  /\ hw (snd (probe_fail a b c d e r s)) = hw s
  /\ In Kfree (log (snd (probe_fail a b c d e r s))).
Proof.
  unfold probe_fail. mbind. mred.
  split; [|split].
  - repeat match goal with |- context [if ?b then _ else _] => destruct b end; reflexivity.
  - repeat match goal with |- context [if ?b then _ else _] => destruct b end; reflexivity.
  - repeat match goal with |- context [if ?b then _ else _] => destruct b end;
      mred; apply in_or_app; right; left; reflexivity.
Qed.

Lemma probe_register_outcome pdev k b s :
  let '(r, w) := probe_register cfg pdev k b s in
  match r with
  | Probed =>
      dev w = (if heartbeat_owner cfg pdev
               then set_users (Z.setbit (users (dev s)) 1)
                      (set_timeout (heartbeat cfg)
                         (set_status (Z.lor WDT_ENABLED WDT_KERNEL_HEARTBEAT) (dev s)))
               else set_status WDT_DISABLED (dev s))
      /\ user w = user s
      /\ (if heartbeat_owner cfg pdev
          then armed (arch cfg) (hw w) = true
          else hw w = hw s)
  | Failed e => e <> 0 /\ In Kfree (log w)
  | _ => False
  end.
Proof.
  unfold probe_register, heartbeat_owner. cbn zeta. rewrite bind_eq. mred.
  destruct (nonzero (register_reboot_notifier_ret k)) eqn:Hr.
  { rewrite bind_eq. mred.
    match goal with |- context [probe_fail ?a ?b ?c ?d ?e ?r ?s] =>
      pose proof (probe_fail_result a b c d e r s) as Hf;
      destruct (probe_fail_world a b c d e r s) as (_ & _ & Hk);
      destruct (probe_fail a b c d e r s) as [res w] end.
    cbn [fst snd] in *. subst res. split; [|exact Hk].
    apply negb_true_iff, Z.eqb_neq in Hr. exact Hr. }
  destruct (nonzero (misc_register_ret k)) eqn:Hm.
  { rewrite bind_eq. mred.
    match goal with |- context [probe_fail ?a ?b ?c ?d ?e ?r ?s] =>
      pose proof (probe_fail_result a b c d e r s) as Hf;
      destruct (probe_fail_world a b c d e r s) as (_ & _ & Hk);
      destruct (probe_fail a b c d e r s) as [res w] end.
    cbn [fst snd] in *. subst res. split; [|exact Hk].
    apply negb_true_iff, Z.eqb_neq in Hm. exact Hm. }
  destruct (enable_heartbeat cfg && _).
  - mbind. mred. rewrite enable_dev, enable_user, enable_armed. mred. auto.
  - mbind. mred. auto.
Qed.

Lemma probe_request_irq_outcome pdev k n s :
  let '(r, w) := probe_request_irq cfg pdev k n s in
  match r with
  | Probed =>
      dev w = (if heartbeat_owner cfg pdev
               then set_users (Z.setbit (users (dev s)) 1)
                      (set_timeout (heartbeat cfg)
                         (set_status (Z.lor WDT_ENABLED WDT_KERNEL_HEARTBEAT)
                            (set_irq (to_int n) (dev s))))
               else set_status WDT_DISABLED (set_irq (to_int n) (dev s)))
      /\ user w = user s
      /\ (if heartbeat_owner cfg pdev
          then armed (arch cfg) (hw w) = true
          else hw w = hw s)
  | Failed e => e <> 0 /\ In Kfree (log w)
  | _ => False
  end.
Proof.
  unfold probe_request_irq. rewrite bind_eq. mred.
  destruct (nonzero (request_irq_ret k)) eqn:Hr.
  { rewrite bind_eq. mred.
    match goal with |- context [probe_fail ?a ?b ?c ?d ?e ?r ?s] =>
      pose proof (probe_fail_result a b c d e r s) as Hf;
      destruct (probe_fail_world a b c d e r s) as (_ & _ & Hk);
      destruct (probe_fail a b c d e r s) as [res w] end.
    cbn [fst snd] in *. subst res. split; [|exact Hk].
    apply negb_true_iff, Z.eqb_neq in Hr. exact Hr. }
  rewrite bind_eq. mred.
  match goal with |- context [probe_register cfg pdev k ?b ?s0] =>
    pose proof (probe_register_outcome pdev k b s0) as H;
    destruct (probe_register cfg pdev k b s0) as [res w] end.
  destruct res; exact H.
Qed.

Lemma probe_irq_outcome pdev k s :
  let '(r, w) := probe_irq cfg pdev k s in
  match r with
  | Probed =>
      let d0 := match res_irq pdev with
                | Some n =>
                    set_irq (to_int n)
                      (if fiq_debugger cfg then set_int_base true (dev s) else dev s)
                | None => dev s
                end in
      dev w = (if heartbeat_owner cfg pdev
               then set_users (Z.setbit (users d0) 1)
                      (set_timeout (heartbeat cfg)
                         (set_status (Z.lor WDT_ENABLED WDT_KERNEL_HEARTBEAT) d0))
               else set_status WDT_DISABLED d0)
      /\ user w = user s
      /\ (if heartbeat_owner cfg pdev
          then armed (arch cfg) (hw w) = true
          else ptv (hw w) = ptv (hw s))
  | Failed e => In Kfree (log w) /\ (e = 0 -> fiq_debugger cfg = true)
  | Oops => fiq_debugger cfg = true /\ res_int_base pdev = false /\ is_Some (res_irq pdev)
  | Refused _ => False
  end.
Proof.
  unfold probe_irq. destruct (res_irq pdev) as [n|] eqn:Hirq.
  - destruct (fiq_debugger cfg) eqn:Hfiq.
    + destruct (res_int_base pdev); [|cbn [ret]; eauto].
      destruct (request_int_base_ok k).
      * destruct (ioremap_int_base_ok k).
        -- mbind. mred.
           match goal with |- context [probe_request_irq cfg pdev k n ?s0] =>
             pose proof (probe_request_irq_outcome pdev k n s0) as H;
             destruct (probe_request_irq cfg pdev k n s0) as [res w] end.
           destruct (int_priority_frame cfg (set_dev (set_int_base true (dev s)) s))
             as (_ & _ & Hp).
           assert (Hd : dev (snd (tegra_wdt_int_priority cfg (set_dev (set_int_base true (dev s)) s)))
                        = set_int_base true (dev s)).
           { unfold tegra_wdt_int_priority. rewrite bind_eq. mred. reflexivity. }
           assert (Hu : user (snd (tegra_wdt_int_priority cfg (set_dev (set_int_base true (dev s)) s)))
                        = user s).
           { unfold tegra_wdt_int_priority. rewrite bind_eq. mred. reflexivity. }
           destruct res; [| |destruct H|destruct H].
           ++ cbn zeta. destruct H as (H1 & H2 & H3). rewrite H1, H2, Hd, Hu.
              split; [reflexivity|]. split; [reflexivity|].
              destruct (heartbeat_owner cfg pdev); [exact H3|]. rewrite H3. exact Hp.
           ++ destruct H as [H1 H2]. split; [exact H2|]. intros ->. congruence.
        -- match goal with |- context [probe_fail ?a ?b ?c ?d ?e ?r ?s] =>
             pose proof (probe_fail_result a b c d e r s) as Hf;
             destruct (probe_fail_world a b c d e r s) as (_ & _ & Hk);
             destruct (probe_fail a b c d e r s) as [res w] end.
           cbn [fst snd] in *. subst res. auto.
      * match goal with |- context [probe_fail ?a ?b ?c ?d ?e ?r ?s] =>
          pose proof (probe_fail_result a b c d e r s) as Hf;
          destruct (probe_fail_world a b c d e r s) as (_ & _ & Hk);
          destruct (probe_fail a b c d e r s) as [res w] end.
        cbn [fst snd] in *. subst res. auto.
    + pose proof (probe_request_irq_outcome pdev k n s) as H.
      destruct (probe_request_irq cfg pdev k n s) as [res w].
      destruct res; [| |destruct H|destruct H].
      * cbn zeta. destruct H as (H1 & H2 & H3). rewrite H1, H2.
        split; [reflexivity|]. split; [reflexivity|].
        destruct (heartbeat_owner cfg pdev); [exact H3|]. rewrite H3. reflexivity.
      * destruct H as [H1 H2]. split; [exact H2|]. intros ->. congruence.
  - pose proof (probe_register_outcome pdev k (res_int_base pdev && fiq_debugger cfg) s) as H.
    destruct (probe_register cfg pdev k _ s) as [res w].
    destruct res; [| |destruct H|destruct H].
    + cbn zeta. destruct H as (H1 & H2 & H3). rewrite H1, H2.
      split; [reflexivity|]. split; [reflexivity|].
      destruct (heartbeat_owner cfg pdev); [exact H3|]. rewrite H3. reflexivity.
    + destruct H as [H1 H2]. split; [exact H2|]. intros ->. congruence.
Qed.

Lemma probe_outcome pdev k w0 :
  let '(r, w) := tegra_wdt_probe cfg pdev k w0 in
  match r with
  | Probed =>
      dev w = probed_wdt cfg pdev
      /\ user w = user w0
      /\ armed (arch cfg) (hw w) = heartbeat_owner cfg pdev
  | Refused e =>
      (e = - ENOENT \/ e = - ENOMEM)
      /\ dev w = dev w0 /\ hw w = hw w0
      /\ exists msg, log w = log w0 ++ [DevErr msg]
  | Failed e => In Kfree (log w) /\ (e = 0 -> fiq_debugger cfg = true)
  | Oops => fiq_debugger cfg = true /\ res_int_base pdev = false /\ is_Some (res_irq pdev)
  end.
Proof.
  unfold tegra_wdt_probe.
  destruct ((id pdev <? -1) && (id pdev >? 3)) eqn:Hid.
  { exfalso. apply andb_true_iff in Hid as [H1 H2].
    apply Z.ltb_lt in H1. apply Z.gtb_lt in H2. lia. }
  destruct (negb (res_src pdev) || negb (res_wdt pdev)
            || ((id pdev =? 0) && negb (bool_decide (is_Some (res_irq pdev)))));
    [mbind; mred; solve [eauto 10]|].
  destruct (fiq_debugger cfg && (id pdev =? 0) && negb (res_int_base pdev));
    [mbind; mred; solve [eauto 10]|].
  destruct ((id pdev =? -1) && negb (bool_decide (is_Some (res_irq pdev))));
    [mbind; mred; solve [eauto 10]|].
  destruct (negb (kzalloc_ok k)); [mbind; mred; solve [eauto 10]|].
  cbn zeta. rewrite bind_eq. mred.
  destruct (negb (request_src_ok k) || negb (request_wdt_ok k)).
  { rewrite bind_eq. mred.
    match goal with |- context [probe_fail ?a ?b ?c ?d ?e ?r ?s] =>
      pose proof (probe_fail_result a b c d e r s) as Hf;
      destruct (probe_fail_world a b c d e r s) as (_ & _ & Hk);
      destruct (probe_fail a b c d e r s) as [res w] end.
    cbn [fst snd] in *. subst res. split; [exact Hk|]. discriminate. }
  rewrite bind_eq. mred.
  destruct (negb (ioremap_src_ok k) || negb (ioremap_wdt_ok k)).
  { rewrite bind_eq. mred.
    match goal with |- context [probe_fail ?a ?b ?c ?d ?e ?r ?s] =>
      pose proof (probe_fail_result a b c d e r s) as Hf;
      destruct (probe_fail_world a b c d e r s) as (_ & _ & Hk);
      destruct (probe_fail a b c d e r s) as [res w] end.
    cbn [fst snd] in *. subst res. split; [exact Hk|]. discriminate. }
  mbind.
  match goal with |- context [probe_irq cfg pdev k ?s0] =>
    set (s1 := s0);
    pose proof (probe_irq_outcome pdev k s1) as H;
    destruct (probe_irq cfg pdev k s1) as [res w] end.
  destruct res; [|exact H|destruct H|exact H]. cbn zeta in H. destruct H as (Hd & Hu & Hh).
  assert (Hd1 : dev s1 = set_tmrsrc (Z.rem (TMR_SRC_START + id pdev) 10) kzalloc_wdt).
  { subst s1. destruct (arch cfg); mred; rewrite ?disable_dev; mred;
      try destruct (last_reset_wdt k); mred; rewrite ?disable_dev; reflexivity. }
  assert (Hu1 : user s1 = user w0).
  { subst s1. destruct (arch cfg); mred; rewrite ?disable_user; mred;
      try destruct (last_reset_wdt k); mred; rewrite ?disable_user; reflexivity. }
  assert (Hp1 : ptv (hw s1) = 0).
  { subst s1. destruct (arch cfg) eqn:Ha; mred; rewrite ?Ha; hwred; apply disable_ptv. }
  rewrite Hd, Hu, Hd1, Hu1. split; [|split; [reflexivity|]].
  - unfold probed_wdt.
    destruct (heartbeat_owner cfg pdev), (res_irq pdev), (fiq_debugger cfg); reflexivity.
  - destruct (heartbeat_owner cfg pdev); [exact Hh|].
    unfold armed. rewrite Hh, Hp1. destruct (arch cfg); reflexivity.
Qed.

(** X15: what probe can answer.  It never refuses a device for its id:
    a refusal is [-ENOENT] or [-ENOMEM], is logged, and happens before
    any register is written.  Whenever the [fail:] path is taken the
    instance is freed, and it returns 0 there only in the FIQ debugger
    build.  A NULL resource is dereferenced only in the FIQ debugger
    build, for a device with an interrupt but no interrupt-controller
    window. *)
Theorem probe_failure_codes pdev k w0 :
  let '(r, w) := tegra_wdt_probe cfg pdev k w0 in
  r <> Refused (- ENODEV)
  /\ match r with
     | Probed => True
     | Refused e =>
         (e = - ENOENT \/ e = - ENOMEM)
         /\ dev w = dev w0 /\ hw w = hw w0
         /\ exists msg, log w = log w0 ++ [DevErr msg]
     | Failed e => In Kfree (log w) /\ (e = 0 -> fiq_debugger cfg = true)
     | Oops =>
         fiq_debugger cfg = true /\ res_int_base pdev = false /\ is_Some (res_irq pdev)
     end.
Proof.
  pose proof (probe_outcome pdev k w0) as H.
  destruct (tegra_wdt_probe cfg pdev k w0) as [r w].
  destruct r; (split; [try discriminate|]); try exact H; try exact I.
  destruct H as ([-> | ->] & _); discriminate.
Qed.

(** X16: the instance a successful probe registers.  All its fields
    are determined by the device and the configuration: timer source
    [(7 + id) % 10], the interrupt number (0 when the device has
    none), and either the heartbeat owner's state -- enabled, busy,
    armed with the module timeout -- or status [WDT_DISABLED] with
    free users flag, timeout 0 and disarmed hardware. *)
Theorem probe_success_state pdev k w0 w :
  tegra_wdt_probe cfg pdev k w0 = (Probed, w) ->
  dev w = probed_wdt cfg pdev
  /\ user w = user w0
  /\ armed (arch cfg) (hw w) = heartbeat_owner cfg pdev
  /\ users_flag (dev w) = heartbeat_owner cfg pdev
  /\ has_flag WDT_ENABLED (dev w) = heartbeat_owner cfg pdev
  /\ has_flag WDT_DISABLED (dev w) = negb (heartbeat_owner cfg pdev).
Proof.
  intros Hp. pose proof (probe_outcome pdev k w0) as H. rewrite Hp in H.
  destruct H as (Hd & Hu & Ha). rewrite Hd.
  split; [reflexivity|]. split; [exact Hu|]. split; [exact Ha|].
  unfold probed_wdt, users_flag, has_flag. cbn [users status].
  destruct (heartbeat_owner cfg pdev); repeat split; reflexivity.
Qed.

(** X17: devices with different ids between -1 and 3 are given
    different timer sources, each between 0 and 9. *)
Theorem probe_timer_sources_distinct pdev1 pdev2 k1 k2 w01 w02 w1 w2 :
  tegra_wdt_probe cfg pdev1 k1 w01 = (Probed, w1) ->
  tegra_wdt_probe cfg pdev2 k2 w02 = (Probed, w2) ->
  -1 <= id pdev1 <= 3 -> -1 <= id pdev2 <= 3 ->
  id pdev1 <> id pdev2 ->
  tmrsrc (dev w1) <> tmrsrc (dev w2)
  /\ 0 <= tmrsrc (dev w1) < 10.
Proof.
  intros Hp1 Hp2 Hi1 Hi2 Hne.
  pose proof (probe_outcome pdev1 k1 w01) as H1. rewrite Hp1 in H1.
  pose proof (probe_outcome pdev2 k2 w02) as H2. rewrite Hp2 in H2.
  destruct H1 as (-> & _). destruct H2 as (-> & _).
  unfold probed_wdt, TMR_SRC_START. cbn [tmrsrc].
  assert (Hr : forall i, -1 <= i <= 3 ->
               Z.rem (7 + i) 10 = if i =? 3 then 0 else 7 + i).
  { intros i Hi.
    assert (Hc : i = -1 \/ i = 0 \/ i = 1 \/ i = 2 \/ i = 3) by lia.
    destruct Hc as [-> | [-> | [-> | [-> | ->]]]]; reflexivity. }
  rewrite (Hr _ Hi1), (Hr _ Hi2).
  destruct (Z.eqb_spec (id pdev1) 3), (Z.eqb_spec (id pdev2) 3); lia.
Qed.

(** X18: remove after a successful probe returns 0, disarms the
    hardware and frees the instance.  It calls [free_irq] on the
    instance's interrupt field whenever that is not -1 -- for a device
    probed without an interrupt resource the field is still 0 from
    [kzalloc], so interrupt 0 is freed. *)
Theorem remove_after_probe pdev k w0 w held :
  tegra_wdt_probe cfg pdev k w0 = (Probed, w) ->
  let '(r, s') := tegra_wdt_remove cfg held w in
  r = 0
  /\ armed (arch cfg) (hw s') = false
  /\ In Kfree (log s')
  /\ match res_irq pdev with
     | None => In (FreeIrq 0) (log s')
     | Some n => to_int n <> -1 -> In (FreeIrq (to_int n)) (log s')
     end.
Proof.
  intros Hp. pose proof (probe_outcome pdev k w0) as H. rewrite Hp in H.
  destruct H as (Hd & _ & _).
  assert (Hirq : irq (dev w) = match res_irq pdev with Some n => to_int n | None => 0 end)
    by (rewrite Hd; reflexivity).
  unfold tegra_wdt_remove. mbind. mred. rewrite !disable_dev, Hirq.
  assert (Hin : forall (l : list io_event) e tl, In e tl -> In e (l ++ tl))
    by (intros l e tl He; apply in_or_app; right; exact He).
  destruct (res_irq pdev) as [n|].
  - destruct (Z.eqb_spec (to_int n) (-1)) as [Hn|Hn];
      destruct (int_base (dev w)), held; mred; rewrite disable_armed;
      (split; [reflexivity|]; split; [reflexivity|]);
      rewrite <- ?app_assoc; cbn [app];
      (split; [apply Hin; cbn [In]; tauto|]);
      intros Hne; try contradiction; apply Hin; cbn [In]; tauto.
  - cbn [Z.eqb]. destruct (int_base (dev w)), held; mred; rewrite disable_armed;
      (split; [reflexivity|]; split; [reflexivity|]);
      rewrite <- ?app_assoc; cbn [app];
      (split; apply Hin; cbn [In]; tauto).
Qed.

End ProbeMore.

(** ** Exclusive use *)

Section Exclusive.

Variable cfg : kconfig.

Lemma ioctl_keeps_owner cmd arg s :
  users (dev (snd (tegra_wdt_ioctl cfg cmd arg s))) = users (dev s)
  /\ has_flag WDT_KERNEL_HEARTBEAT (dev (snd (tegra_wdt_ioctl cfg cmd arg s)))
     = has_flag WDT_KERNEL_HEARTBEAT (dev s).
Proof.
  destruct cmd.
  - cbn [tegra_wdt_ioctl]. destruct (copy_to_user_frame ident arg s) as (Hd & _).
    unfold has_flag. rewrite Hd. auto.
  - cbn [tegra_wdt_ioctl]. destruct (put_user_frame 0 arg s) as (Hd & _).
    unfold has_flag. rewrite Hd. auto.
  - cbn [tegra_wdt_ioctl]. destruct (put_user_frame 0 arg s) as (Hd & _).
    unfold has_flag. rewrite Hd. auto.
  - cbn [tegra_wdt_ioctl]. mbind. mred.
    destruct (ping_session cfg s) as (Hu & _ & Hst & _).
    unfold has_flag. rewrite Hu, Hst. auto.
  - destruct (user s !! arg) as [c|] eqn:Hc.
    + rewrite (settimeout_world cfg s arg c Hc). cbn zeta.
      set (t := clamp _ _ _).
      destruct (put_user_frame t arg (reprogrammed cfg t s)) as (Hd & _).
      destruct (reprogrammed_facts cfg t s) as (Hd' & _).
      unfold has_flag. rewrite Hd, Hd'. auto.
    + rewrite ioctl_get_fault by auto. auto.
  - cbn [tegra_wdt_ioctl]. mbind. mred.
    destruct (put_user_frame (timeout (dev s)) arg s) as (Hd & _).
    unfold has_flag. rewrite Hd. auto.
  - destruct (user s !! arg) as [c|] eqn:Hc.
    + pose proof (setoptions_world cfg s arg c Hc) as Hw. cbn zeta in Hw. rewrite Hw.
      rewrite !has_flag_heartbeat.
      destruct (_ && _).
      * cbn [snd]. rewrite disable_dev. mred.
        rewrite Z.lor_spec, Z.land_spec. cbn.
        rewrite andb_true_r, orb_false_r. auto.
      * destruct (nonzero _); [|auto]. cbn [snd]. mred.
        rewrite Z.land_spec, Z.lor_spec. cbn.
        rewrite andb_true_r, orb_false_r. auto.
    + rewrite ioctl_get_fault by auto. auto.
  - auto.
Qed.

Lemma write_keeps_owner data len s :
  users (dev (snd (tegra_wdt_write cfg data len s))) = users (dev s)
  /\ status (dev (snd (tegra_wdt_write cfg data len s))) = status (dev s).
Proof.
  destruct (nonzero len) eqn:Hl.
  - rewrite write_world by assumption. cbn zeta.
    destruct (ping_session cfg s) as (Hu & _ & Hst & _).
    destruct (user s !! _); cbn [snd]; mred; auto.
  - unfold tegra_wdt_write. rewrite Hl. auto.
Qed.

Lemma background_keeps_owner e st st' :
  (forall c, e <> ev_call c) ->
  sys_step cfg e st = Some st' ->
  users (dev (kernel st')) = users (dev (kernel st))
  /\ status (dev (kernel st')) = status (dev (kernel st))
  /\ file_open st' = file_open st.
Proof.
  intros Hne Hs. destruct st as [s fo].
  destruct e as [c|irqn status_reg| |code| |]; cbn [sys_step kernel file_open] in Hs.
  - exfalso. apply (Hne c). reflexivity.
  - destruct (arch cfg) eqn:Ha; injection Hs as <-; cbn [kernel file_open].
    + rewrite irq_2x_world. cbn zeta.
      destruct (has_flag WDT_KERNEL_HEARTBEAT (dev s)).
      * destruct (ping_session cfg
                    (set_dev (set_irq_counter (to_int (irq_counter (dev s) + 1)) (dev s)) s))
          as (Hu & _ & Hst & _).
        rewrite Hu, Hst. auto.
      * auto.
    + rewrite irq_slot_world.
      destruct (_ && _); [|auto].
      destruct (has_flag WDT_KERNEL_HEARTBEAT (dev s)); [|auto].
      destruct (ping_session cfg s) as (Hu & _ & Hst & _). auto.
  - injection Hs as <-. cbn [kernel file_open]. auto.
  - injection Hs as <-. cbn [kernel file_open]. unfold tegra_wdt_notify. mbind. mred.
    destruct (_ || _); [|auto]. rewrite disable_dev. auto.
  - injection Hs as <-. cbn [kernel file_open]. unfold tegra_wdt_suspend. mbind. mred.
    rewrite disable_dev. auto.
  - injection Hs as <-. cbn [kernel file_open]. unfold tegra_wdt_resume. mbind. mred.
    destruct (nonzero _); [|auto]. rewrite enable_dev. auto.
Qed.

Lemma step_session_inv e st st' :
  session_inv st -> sys_step cfg e st = Some st' -> session_inv st'.
Proof.
  intros [Hopen Hhb] Hs.
  assert (Hcall : forall c, e = ev_call c -> session_inv st').
  { intros c ->. destruct st as [s fo]. unfold session_inv in *.
    cbn [kernel file_open] in *.
    destruct c as [| |m data len|m cmd arg]; cbn [sys_step kernel file_open] in Hs.
    - destruct (users_flag (dev s)) eqn:Hu.
      + rewrite open_busy in Hs by assumption. injection Hs as <-.
        cbn [kernel file_open]. rewrite orb_false_r, Hu. split; assumption.
      + pose proof (open_free cfg s Hu) as H.
        destruct (tegra_wdt_open cfg s) as [r s1]. destruct H as (-> & Hd & _).
        injection Hs as <-. cbn [kernel file_open].
        assert (Hb : has_flag WDT_KERNEL_HEARTBEAT (dev s) = false).
        { destruct (has_flag WDT_KERNEL_HEARTBEAT (dev s)); [|reflexivity].
          destruct (Hhb eq_refl) as [Hc _]. congruence. }
        rewrite has_flag_heartbeat in *. rewrite Hd. unfold users_flag.
        cbn [users status]. rewrite Z.lor_spec, Hb.
        split; [intros _; apply Z.setbit_eq; lia|]. cbn. discriminate.
    - destruct fo; [|discriminate]. injection Hs as <-. cbn [kernel file_open].
      assert (Hb : has_flag WDT_KERNEL_HEARTBEAT (dev s) = false).
      { destruct (has_flag WDT_KERNEL_HEARTBEAT (dev s)); [|reflexivity].
        destruct (Hhb eq_refl) as [_ Hc]. discriminate. }
      split; [discriminate|].
      rewrite release_world. cbn zeta. unfold has_flag in *.
      destruct (_ && _); [destruct (nonzero (way_out_ok (dev s)))|destruct (nowayout cfg)];
        cbn [snd]; mred; rewrite ?disable_dev, ?Hb; try discriminate.
    - destruct fo; [|discriminate]. injection Hs as <-. cbn [kernel file_open run_call].
      destruct (write_keeps_owner data len (set_user m s)) as (Hu & Hst).
      unfold users_flag, has_flag in *. rewrite Hu, Hst. mred. auto.
    - destruct fo; [|discriminate]. injection Hs as <-. cbn [kernel file_open run_call].
      destruct (ioctl_keeps_owner cmd arg (set_user m s)) as (Hu & Hst).
      unfold users_flag in *. rewrite Hu, Hst. mred. auto. }
  destruct e as [c| | | | |]; [apply (Hcall c); reflexivity| | | | |].
  all: match type of Hs with
       | sys_step _ ?e0 _ = _ =>
           destruct (background_keeps_owner e0 st st' ltac:(intros c0; discriminate) Hs)
             as (Hu & Hst & Hf)
       end.
  all: unfold session_inv, users_flag, has_flag in *; rewrite Hu, Hst, Hf; auto.
Qed.

Lemma reachable_session_inv st : reachable cfg st -> session_inv st.
Proof.
  induction 1 as [pdev k w0 w Hp|s e s' _ IH Hs].
  - pose proof (probe_outcome cfg pdev k w0) as H. rewrite Hp in H.
    destruct H as (Hd & _). unfold session_inv, users_flag, has_flag.
    cbn [kernel file_open]. rewrite Hd. unfold probed_wdt. cbn [users status].
    split; [discriminate|].
    destruct (heartbeat_owner cfg pdev); cbn; [auto|discriminate].
  - eapply step_session_inv; eassumption.
Qed.

(** X19: exclusive use, over every state an instance can reach.  While
    a file is open on the device, and at any time for the instance
    that probe made the kernel-heartbeat owner, open fails with
    [-EBUSY] and changes nothing; a heartbeat-owned instance never has
    a file open on it. *)
Theorem open_excluded_while_owned w fo :
  reachable cfg (System w fo) ->
  (fo = true \/ has_flag WDT_KERNEL_HEARTBEAT (dev w) = true ->
   tegra_wdt_open cfg w = (- EBUSY, w))
  /\ (has_flag WDT_KERNEL_HEARTBEAT (dev w) = true -> fo = false).
Proof.
  intros Hr. destruct (reachable_session_inv _ Hr) as [Hopen Hhb].
  cbn [kernel file_open] in *. split.
  - intros [H|H]; apply open_busy; [auto|]. apply Hhb. exact H.
  - intros H. apply Hhb. exact H.
Qed.

End Exclusive.

(** ** Heartbeat interrupts and user memory *)

Section Remaining.

Variable cfg : kconfig.

(** X20: Tegra 2, heartbeat-owned instance.  Every interrupt is
    acknowledged by the handler itself: it re-arms the hardware,
    writes the acknowledge bit, re-enables the line and leaves the
    interrupt count at 0, so the count never builds up; the line is
    never disabled. *)
Theorem heartbeat_interrupt_acknowledges s irqn :
  arch cfg = TEGRA_2x ->
  has_flag WDT_KERNEL_HEARTBEAT (dev s) = true ->
  0 <= irq_counter (dev s) < 2 ^ 31 - 1 ->
  let s' := snd (tegra_wdt_interrupt_2x cfg irqn s) in
  irq_counter (dev s') = 0
  /\ armed (arch cfg) (hw s') = true
  /\ status (dev s') = status (dev s)
  /\ log s' = log s ++ ping_writes cfg (dev s)
              ++ [Writel TIMER_PCR_INTR WDT_TIMER TIMER_PCR; EnableIrq (irq (dev s))].
Proof.
  intros Ha Hb Hc. cbn zeta. rewrite irq_2x_world. cbn zeta. rewrite Hb.
  rewrite to_int_id by lia.
  set (s1 := set_dev _ s).
  assert (Hn : nonzero (irq_counter (dev s1)) = true).
  { subst s1. mred. apply negb_true_iff, Z.eqb_neq. lia. }
  pose proof (ping_armed cfg s1 (or_intror Ha)) as Harm.
  rewrite (ping_2x_world cfg s1 Ha) in *. cbn zeta in *. rewrite Hn in *.
  subst s1. mred. auto.
Qed.

Lemma copy_to_user_keeps_outside objs a b s :
  (forall o, In o objs -> 0 < fst o) ->
  b < a \/ a + fold_right (fun o acc => fst o + acc) 0 objs <= b ->
  user (snd (copy_to_user objs a s)) !! b = user s !! b.
Proof.
  revert a s. induction objs as [|[sz v] rest IH]; intros a s Hpos Hb; [reflexivity|].
  assert (Hsz : 0 < sz) by (apply (Hpos (sz, v)); left; reflexivity).
  assert (Hrest : forall o, In o rest -> 0 < fst o) by (intros o Ho; apply Hpos; right; exact Ho).
  assert (Htot : 0 <= fold_right (fun o acc => fst o + acc) 0 rest).
  { clear -Hrest. induction rest as [|o rest IH]; cbn [fold_right]; [lia|].
    assert (0 < fst o) by (apply Hrest; left; reflexivity).
    assert (0 <= fold_right (fun o acc => fst o + acc) 0 rest)
      by (apply IH; intros o' Ho'; apply Hrest; right; exact Ho').
    lia. }
  cbn [fold_right fst] in Hb.
  assert (Hput : user (snd (put_user v a s)) !! b = user s !! b).
  { unfold put_user. destruct (user s !! a) as [[? []]|]; cbn [snd user set_user]; auto.
    apply lookup_insert_ne. lia. }
  cbn [copy_to_user]. rewrite bind_eq.
  destruct (fst (put_user v a s) =? 0); cbn [ret snd]; [|exact Hput].
  rewrite IH; [exact Hput|exact Hrest|lia].
Qed.

Lemma ioctl_cmd_eq_getsupport cmd : cmd = WDIOC_GETSUPPORT \/ cmd <> WDIOC_GETSUPPORT.
Proof. destruct cmd; auto; right; discriminate. Qed.

Lemma ident_sizes_pos : forall o, In o ident -> 0 < fst o.
Proof.
  intros o Ho. vm_compute in Ho.
  repeat (destruct Ho as [<-|Ho]; [cbn; lia|]). destruct Ho.
Qed.

(** X21: the driver stores to user memory only through the ioctl
    argument: an ioctl leaves every object outside the 40 bytes at
    [arg] as it was (outside the 4 bytes of the [int] at [arg] for
    every command but [WDIOC_GETSUPPORT]), and open, write and release
    store nothing. *)
Theorem user_memory_written_only_at_arg s cmd arg a data len :
  (a < arg \/ arg + 40 <= a ->
   user (snd (tegra_wdt_ioctl cfg cmd arg s)) !! a = user s !! a)
  /\ (cmd <> WDIOC_GETSUPPORT -> a < arg \/ arg + 4 <= a ->
      user (snd (tegra_wdt_ioctl cfg cmd arg s)) !! a = user s !! a)
  /\ user (snd (tegra_wdt_write cfg data len s)) = user s
  /\ user (snd (tegra_wdt_open cfg s)) = user s
  /\ user (snd (tegra_wdt_release cfg s)) = user s.
Proof.
  assert (Hput : forall v s0 b, b <> arg -> user (snd (put_user v arg s0)) !! b = user s0 !! b).
  { intros v s0 b Hb. unfold put_user.
    destruct (user s0 !! arg) as [[? []]|]; cbn [snd user set_user]; auto.
    apply lookup_insert_ne. congruence. }
  assert (Hother : cmd <> WDIOC_GETSUPPORT -> a <> arg ->
                   user (snd (tegra_wdt_ioctl cfg cmd arg s)) !! a = user s !! a).
  { intros Hcmd Ha. destruct cmd; try congruence.
    - cbn [tegra_wdt_ioctl]. apply Hput. exact Ha.
    - cbn [tegra_wdt_ioctl]. apply Hput. exact Ha.
    - cbn [tegra_wdt_ioctl]. mbind. mred. rewrite ping_user. reflexivity.
    - destruct (user s !! arg) as [c|] eqn:Hc.
      + rewrite (settimeout_world cfg s arg c Hc). cbn zeta. rewrite Hput by exact Ha.
        destruct (reprogrammed_facts cfg
                    (clamp (to_int (contents c)) MIN_WDT_PERIOD MAX_WDT_PERIOD) s)
          as (_ & -> & _).
        reflexivity.
      + rewrite ioctl_get_fault by auto. reflexivity.
    - cbn [tegra_wdt_ioctl]. mbind. mred. apply Hput. exact Ha.
    - destruct (user s !! arg) as [c|] eqn:Hc.
      + rewrite (setoptions_world cfg s arg c Hc). cbn zeta.
        destruct (_ && _); [cbn [snd]; rewrite disable_user; reflexivity|].
        destruct (nonzero _); cbn [snd]; mred; rewrite ?enable_user; reflexivity.
      + rewrite ioctl_get_fault by auto. reflexivity.
    - reflexivity. }
  split; [|split].
  - intros Ha. destruct (ioctl_cmd_eq_getsupport cmd) as [->|Hne].
    + cbn [tegra_wdt_ioctl]. apply copy_to_user_keeps_outside; [exact ident_sizes_pos|].
      change (fold_right (fun o acc => fst o + acc) 0 ident) with 40. exact Ha.
    + apply Hother; [exact Hne|lia].
  - intros Hne Ha. apply Hother; [exact Hne|lia].
  - split; [|split].
    + destruct (nonzero len) eqn:Hl.
      * rewrite write_world by assumption. cbn zeta.
        destruct (user s !! (data + len - 1)); cbn [snd]; mred; apply ping_user.
      * unfold tegra_wdt_write. rewrite Hl. reflexivity.
    + destruct (users_flag (dev s)) eqn:Hu.
      * rewrite open_busy by assumption. reflexivity.
      * pose proof (open_free cfg s Hu) as H.
        destruct (tegra_wdt_open cfg s) as [r s']. apply H.
    + rewrite release_world. cbn zeta.
      destruct (_ && _); [destruct (nonzero _)|destruct (nowayout cfg)];
        cbn [snd]; mred; rewrite ?disable_user; reflexivity.
Qed.

End Remaining.

(** ** The further properties on concrete runs *)

(** The opened instance with its 60 s timeout: period 30 s. *)
Lemma enable_programs_exact_period_witness :
  ptv (hw (snd (tegra_wdt_enable tegra2 (opened tegra2))))
  = TIMER_EN + TIMER_PERIODIC
    + timeout (dev (opened tegra2))
      * match arch tegra2 with TEGRA_2x => 500000 | TEGRA_3x => 250000 end.
Proof.
  apply (enable_programs_exact_period tegra2 (opened tegra2)).
  vm_compute. split; discriminate.
Defined.

(** Both option bits at once on the opened instance: disable wins. *)
Lemma setoptions_switches_exclusively_witness :
  let s := set_user (int_arg 3 true) (opened tegra2) in
  let option := to_int (contents (UCell 3 true)) in
  let '(r, s') := tegra_wdt_ioctl tegra2 WDIOC_SETOPTIONS 200 s in
  has_flag WDT_KERNEL_HEARTBEAT (dev s') = has_flag WDT_KERNEL_HEARTBEAT (dev s)
  /\ timeout (dev s') = timeout (dev s)
  /\ if nonzero (Z.land option WDIOS_DISABLECARD) && negb (nowayout tegra2)
     then r = 0
          /\ has_flag WDT_ENABLED (dev s') = false
          /\ has_flag WDT_DISABLED (dev s') = true
          /\ armed (arch tegra2) (hw s') = false
     else if nonzero (Z.land option WDIOS_ENABLECARD)
     then r = 0
          /\ has_flag WDT_ENABLED (dev s') = true
          /\ has_flag WDT_DISABLED (dev s') = false
          /\ armed (arch tegra2) (hw s') = true
     else r = - EINVAL /\ s' = s.
Proof.
  apply (setoptions_switches_exclusively tegra2 (set_user (int_arg 3 true) (opened tegra2))
           200 (UCell 3 true)).
  vm_compute. reflexivity.
Defined.

(** [WDIOC_GETTIMEOUT] on the opened instance. *)
Lemma query_ioctls_change_nothing_witness :
  let s := set_user (int_arg 0 true) (opened tegra2) in
  let s' := snd (tegra_wdt_ioctl tegra2 WDIOC_GETTIMEOUT 200 s) in
  dev s' = dev s /\ hw s' = hw s /\ log s' = log s.
Proof.
  apply (proj1 (query_ioctls_change_nothing tegra2
                  (set_user (int_arg 0 true) (opened tegra2)) 200) WDIOC_GETTIMEOUT).
  cbn [In]. tauto.
Defined.

(** [WDIOC_GETSUPPORT] into a read-only word: 40 bytes left. *)
Lemma getsupport_returns_uncopied_bytes_witness :
  let s := set_user (int_arg 0 false) (opened tegra2) in
  let '(r, s') := tegra_wdt_ioctl tegra2 WDIOC_GETSUPPORT 200 s in
  0 <= r <= 40
  /\ ((forall c, user s !! 200 = Some c -> writable c = false) -> r = 40 /\ s' = s)
  /\ (r = 0 -> contents <$> user s' !! 200 = Some WDIOF_SETTIMEOUT).
Proof.
  exact (getsupport_returns_uncopied_bytes tegra2
           (set_user (int_arg 0 false) (opened tegra2)) 200).
Defined.

(** Keep-alive after [WDIOS_DISABLECARD]. *)
Lemma keepalive_arms_on_tegra2_witness :
  let '(r, s') := tegra_wdt_ioctl tegra2 WDIOC_KEEPALIVE 200 card_disabled in
  r = 0
  /\ armed (arch tegra2) (hw s') = true
  /\ status (dev s') = status (dev card_disabled)
  /\ timeout (dev s') = timeout (dev card_disabled)
  /\ way_out_ok (dev s') = way_out_ok (dev card_disabled)
  /\ users (dev s') = users (dev card_disabled).
Proof.
  apply (keepalive_arms_on_tegra2 tegra2 card_disabled 200). reflexivity.
Defined.

(** "okV" against a buffer that only has the 'V'. *)
Lemma write_reads_last_byte_only_witness :
  let m2 : gmap Z ucell := <[102 := UCell 86 false]> ∅ in
  let r1 := tegra_wdt_write tegra2 100 3 (set_user buf_okV (opened tegra2)) in
  let r2 := tegra_wdt_write tegra2 100 3 (set_user m2 (opened tegra2)) in
  fst r1 = fst r2
  /\ dev (snd r1) = dev (snd r2)
  /\ hw (snd r1) = hw (snd r2)
  /\ log (snd r1) = log (snd r2).
Proof.
  apply (write_reads_last_byte_only tegra2 (opened tegra2) buf_okV
           (<[102 := UCell 86 false]> ∅) 100 3).
  vm_compute. reflexivity.
Defined.

(** [WDIOC_SETTIMEOUT] with 2000 twice. *)
Lemma settimeout_twice_is_settimeout_once_witness :
  let s := set_user (int_arg 2000 true) (opened tegra2) in
  let s1 := snd (tegra_wdt_ioctl tegra2 WDIOC_SETTIMEOUT 200 s) in
  let '(r2, s2) := tegra_wdt_ioctl tegra2 WDIOC_SETTIMEOUT 200 s1 in
  r2 = 0 /\ dev s2 = dev s1 /\ hw s2 = hw s1 /\ user s2 = user s1.
Proof.
  apply (settimeout_twice_is_settimeout_once tegra2
           (set_user (int_arg 2000 true) (opened tegra2)) 200 (UCell 2000 true)).
  - vm_compute. reflexivity.
  - reflexivity.
Defined.

(** After [WDIOS_DISABLECARD]: set the timeout, write "okV", close. *)
Lemma settimeout_arms_past_magic_close_witness :
  let s := set_user (int_arg 10 true) card_disabled in
  let s1 := snd (tegra_wdt_ioctl tegra2 WDIOC_SETTIMEOUT 200 s) in
  let s2 := snd (tegra_wdt_write tegra2 100 3 (set_user buf_okV s1)) in
  let s3 := snd (tegra_wdt_release tegra2 s2) in
  armed (arch tegra2) (hw s1) = true
  /\ armed (arch tegra2) (hw s3) = true
  /\ has_flag WDT_ENABLED (dev s3) = false
  /\ users_flag (dev s3) = false.
Proof.
  apply (settimeout_arms_past_magic_close tegra2 (set_user (int_arg 10 true) card_disabled)
           200 (UCell 10 true) buf_okV 100 3).
  - vm_compute. reflexivity.
  - vm_compute. reflexivity.
Defined.

(** An interrupt on the opened, user-owned instance, then two pings. *)
Lemma interrupt_line_reenabled_by_next_ping_witness :
  let s := opened tegra2 in
  let s1 := snd (tegra_wdt_interrupt_2x tegra2 32 s) in
  let s2 := snd (tegra_wdt_ping tegra2 s1) in
  let s3 := snd (tegra_wdt_ping tegra2 s2) in
  irq_counter (dev s1) = irq_counter (dev s) + 1
  /\ hw s1 = hw s
  /\ irq_counter (dev s2) = 0
  /\ log s2 = log s ++ [TaskletSchedule; DisableIrqNosync 32]
              ++ ping_writes tegra2 (dev s)
              ++ [Writel TIMER_PCR_INTR WDT_TIMER TIMER_PCR; EnableIrq (irq (dev s))]
  /\ log s3 = log s2 ++ ping_writes tegra2 (dev s).
Proof.
  apply (interrupt_line_reenabled_by_next_ping tegra2 (opened tegra2) 32).
  - reflexivity.
  - vm_compute. reflexivity.
  - vm_compute. split; [discriminate|reflexivity].
Defined.

(** The shared handler over the heartbeat owner and three empty slots. *)
Lemma shared_interrupt_only_pings_witness :
  let registry := [Some (probed3 tegra3_heartbeat); None; None; None] in
  let status_regs := fun _ : nat => WDT_INTR_STAT in
  let '(r, registry') := tegra_wdt_interrupt_3x tegra3_heartbeat status_regs registry in
  r = IRQ_HANDLED
  /\ length registry' = length registry
  /\ forall i : nat,
       match registry !! i with
       | None => registry' !! i = None
       | Some None => registry' !! i = Some None
       | Some (Some s) =>
           exists s',
             registry' !! i = Some (Some s')
             /\ dev s' = dev s
             /\ (armed (arch tegra3_heartbeat) (hw s) = true ->
                 armed (arch tegra3_heartbeat) (hw s') = true)
             /\ (has_flag WDT_KERNEL_HEARTBEAT (dev s) = false -> hw s' = hw s)
             /\ ((MAX_NR_CPU_WDT <= i)%nat
                 \/ has_flag WDT_ENABLED (dev s) = false
                 \/ nonzero (Z.land (status_regs i) WDT_INTR_STAT) = false ->
                 s' = s)
       end.
Proof.
  apply (shared_interrupt_only_pings tegra3_heartbeat (fun _ : nat => WDT_INTR_STAT)
           [Some (probed3 tegra3_heartbeat); None; None; None]).
  reflexivity.
Defined.

(** The FIQ build with the class register all ones: bit 27 is cleared. *)
Lemma int_priority_clears_one_bit_witness :
  let s := World (set_int_base true kzalloc_wdt) (TimerHw 0 0 0 false 4294967295) [] ∅ in
  Z.testbit (iep_class (hw (snd (tegra_wdt_int_priority tegra3_fiq s)))) 27
  = Z.testbit (iep_class (hw s)) 27 && negb (27 =? Z.land (int_wdt_cpu tegra3_fiq) 31).
Proof.
  refine (proj2 (proj2 (int_priority_clears_one_bit tegra3_fiq
                          (World (set_int_base true kzalloc_wdt)
                             (TimerHw 0 0 0 false 4294967295) [] ∅))) 27 _).
  lia.
Defined.

(** The FIQ build when the interrupt-controller window cannot be
    requested: the [fail:] path returns 0. *)
Lemma probe_failure_codes_witness :
  let '(r, w) := tegra_wdt_probe tegra3_fiq wdt_device0_fiq kernel_no_int_base power_on in
  r <> Refused (- ENODEV)
  /\ match r with
     | Probed => True
     | Refused e =>
         (e = - ENOENT \/ e = - ENOMEM)
         /\ dev w = dev power_on /\ hw w = hw power_on
         /\ exists msg, log w = log power_on ++ [DevErr msg]
     | Failed e => In Kfree (log w) /\ (e = 0 -> fiq_debugger tegra3_fiq = true)
     | Oops =>
         fiq_debugger tegra3_fiq = true /\ res_int_base wdt_device0_fiq = false
         /\ is_Some (res_irq wdt_device0_fiq)
     end.
Proof.
  exact (probe_failure_codes tegra3_fiq wdt_device0_fiq kernel_no_int_base power_on).
Defined.

Lemma probed_heartbeat3 :
  tegra_wdt_probe tegra3_heartbeat wdt_device0 kernel_ok power_on
  = (Probed, probed3 tegra3_heartbeat).
Proof. vm_compute. reflexivity. Qed.

Lemma probed_device3 :
  tegra_wdt_probe tegra3_heartbeat wdt_device3 kernel_ok power_on
  = (Probed, snd (tegra_wdt_probe tegra3_heartbeat wdt_device3 kernel_ok power_on)).
Proof. vm_compute. reflexivity. Qed.

(** Device 0 of the Tegra 3 heartbeat build. *)
Lemma probe_success_state_witness :
  let w := probed3 tegra3_heartbeat in
  dev w = probed_wdt tegra3_heartbeat wdt_device0
  /\ user w = user power_on
  /\ armed (arch tegra3_heartbeat) (hw w) = heartbeat_owner tegra3_heartbeat wdt_device0
  /\ users_flag (dev w) = heartbeat_owner tegra3_heartbeat wdt_device0
  /\ has_flag WDT_ENABLED (dev w) = heartbeat_owner tegra3_heartbeat wdt_device0
  /\ has_flag WDT_DISABLED (dev w) = negb (heartbeat_owner tegra3_heartbeat wdt_device0).
Proof.
  exact (probe_success_state tegra3_heartbeat wdt_device0 kernel_ok power_on _
           probed_heartbeat3).
Defined.

(** Devices 0 and 3: timer sources 7 and 0. *)
Lemma probe_timer_sources_distinct_witness :
  tmrsrc (dev (probed3 tegra3_heartbeat))
  <> tmrsrc (dev (snd (tegra_wdt_probe tegra3_heartbeat wdt_device3 kernel_ok power_on)))
  /\ 0 <= tmrsrc (dev (probed3 tegra3_heartbeat)) < 10.
Proof.
  apply (probe_timer_sources_distinct tegra3_heartbeat wdt_device0 wdt_device3
           kernel_ok kernel_ok power_on power_on _ _ probed_heartbeat3 probed_device3).
  - vm_compute. split; discriminate.
  - vm_compute. split; discriminate.
  - vm_compute. discriminate.
Defined.

(** Device 3 has no interrupt resource: remove frees interrupt 0. *)
Lemma remove_after_probe_witness :
  let w := snd (tegra_wdt_probe tegra3_heartbeat wdt_device3 kernel_ok power_on) in
  let '(r, s') := tegra_wdt_remove tegra3_heartbeat false w in
  r = 0
  /\ armed (arch tegra3_heartbeat) (hw s') = false
  /\ In Kfree (log s')
  /\ match res_irq wdt_device3 with
     | None => In (FreeIrq 0) (log s')
     | Some n => to_int n <> -1 -> In (FreeIrq (to_int n)) (log s')
     end.
Proof.
  exact (remove_after_probe tegra3_heartbeat wdt_device3 kernel_ok power_on _ false
           probed_device3).
Defined.

Lemma heartbeat3_reachable : reachable tegra3_heartbeat (System (probed3 tegra3_heartbeat) false).
Proof. exact (reach_probe tegra3_heartbeat wdt_device0 kernel_ok power_on _ probed_heartbeat3). Qed.

(** The heartbeat owner cannot be opened. *)
Lemma open_excluded_while_owned_witness :
  tegra_wdt_open tegra3_heartbeat (probed3 tegra3_heartbeat)
  = (- EBUSY, probed3 tegra3_heartbeat).
Proof.
  apply (proj1 (open_excluded_while_owned tegra3_heartbeat (probed3 tegra3_heartbeat) false
                  heartbeat3_reachable)).
  right. vm_compute. reflexivity.
Defined.

(** An interrupt on the Tegra 2 heartbeat owner. *)
Lemma heartbeat_interrupt_acknowledges_witness :
  let s := probed tegra2_heartbeat in
  let s' := snd (tegra_wdt_interrupt_2x tegra2_heartbeat 32 s) in
  irq_counter (dev s') = 0
  /\ armed (arch tegra2_heartbeat) (hw s') = true
  /\ status (dev s') = status (dev s)
  /\ log s' = log s ++ ping_writes tegra2_heartbeat (dev s)
              ++ [Writel TIMER_PCR_INTR WDT_TIMER TIMER_PCR; EnableIrq (irq (dev s))].
Proof.
  apply (heartbeat_interrupt_acknowledges tegra2_heartbeat (probed tegra2_heartbeat) 32).
  - reflexivity.
  - vm_compute. reflexivity.
  - vm_compute. split; [discriminate|reflexivity].
Defined.

(** [WDIOC_GETSUPPORT] at 200 leaves the object at 100 alone. *)
Lemma user_memory_written_only_at_arg_witness :
  let s := set_user (<[200 := UCell 0 true]> buf_okV) (opened tegra2) in
  user (snd (tegra_wdt_ioctl tegra2 WDIOC_GETSUPPORT 200 s)) !! 100 = user s !! 100.
Proof.
  apply (proj1 (user_memory_written_only_at_arg tegra2
                  (set_user (<[200 := UCell 0 true]> buf_okV) (opened tegra2))
                  WDIOC_GETSUPPORT 200 100 0 0)).
  left. lia.
Defined.
